(** * setup_tree: shell files, module files and the env symlink tree

    A shallow embedding of [bin/setup_tree.py].  Python strings are Rocq
    strings of bytes, a [dict] is an association list in insertion order,
    the file system is a finite map from path strings to nodes, and every
    function that touches the outside world is a computation in a state and
    exception monad over a [world]. *)

From Stdlib Require Import ZArith String Ascii List Bool Lia.
From stdpp Require Import base option list gmap strings pretty fin_maps.

Local Open Scope string_scope.
Local Open Scope Z_scope.

(** ** Python values and strings *)

Module Py.

(** The characters that cannot be typed inside a literal here. *)
Definition nl : string := String (ascii_of_nat 10) EmptyString.
Definition dq : string := String (ascii_of_nat 34) EmptyString.

(** What a configuration stores: text, or a flag such as [current]. *)
Inductive value :=
| VStr (s : string)
| VBool (b : bool).

(** [bool(v)] *)
Definition truthy (v : value) : bool :=
  match v with
  | VStr s => negb (String.eqb s "")
  | VBool b => b
  end.

(** ['{0}'.format(v)] *)
Definition str (v : value) : string :=
  match v with
  | VStr s => s
  | VBool true => "True"
  | VBool false => "False"
  end.

(** A [dict] with string keys, in insertion order. *)
Definition dict (V : Type) : Type := list (string * V).

(** [d[k]], [None] standing for [KeyError]. *)
Fixpoint getitem {V} (d : dict V) (k : string) : option V :=
  match d with
  | [] => None
  | (k', v) :: d' => if String.eqb k' k then Some v else getitem d' k
  end.

(** [d[k] = v]: an existing key keeps its place, a new one goes last. *)
Fixpoint setitem {V} (d : dict V) (k : string) (v : V) : dict V :=
  match d with
  | [] => [(k, v)]
  | (k', v') :: d' =>
      if String.eqb k' k then (k, v) :: d' else (k', v') :: setitem d' k v
  end.

(** [sub in s] *)
Fixpoint contains (sub s : string) : bool :=
  String.prefix sub s ||
  match s with
  | EmptyString => false
  | String _ s' => contains sub s'
  end.

(** [x in [a, b, ...]] for strings *)
Definition in_list (x : string) (l : list string) : bool :=
  existsb (String.eqb x) l.

Definition upper_ascii (c : ascii) : ascii :=
  let n := nat_of_ascii c in
  if (97 <=? n)%nat && (n <=? 122)%nat then ascii_of_nat (n - 32) else c.

(** [s.upper()], for names written in ASCII *)
Fixpoint upper (s : string) : string :=
  match s with
  | EmptyString => EmptyString
  | String c s' => String (upper_ascii c) (upper s')
  end.

(** [str.isspace] on one byte *)
Definition isspace (c : ascii) : bool :=
  let n := nat_of_ascii c in
  ((9 <=? n)%nat && (n <=? 13)%nat) || ((28 <=? n)%nat && (n <=? 32)%nat).

Fixpoint lstrip_by (f : ascii -> bool) (s : string) : string :=
  match s with
  | EmptyString => EmptyString
  | String c s' => if f c then lstrip_by f s' else s
  end.

Fixpoint rstrip_by (f : ascii -> bool) (s : string) : string :=
  match s with
  | EmptyString => EmptyString
  | String c s' =>
      match rstrip_by f s' with
      | EmptyString => if f c then EmptyString else String c EmptyString
      | r => String c r
      end
  end.

(** [s.strip()] *)
Definition strip (s : string) : string := rstrip_by isspace (lstrip_by isspace s).

(** [s.rstrip('/')] *)
Definition rstrip_slash (s : string) : string :=
  rstrip_by (fun c => Ascii.eqb c "/"%char) s.

(** [s.split(':')] *)
Fixpoint split_colon (s : string) : list string :=
  match s with
  | EmptyString => [EmptyString]
  | String c s' =>
      if Ascii.eqb c ":"%char then EmptyString :: split_colon s'
      else match split_colon s' with
           | [] => [String c EmptyString]
           | w :: ws => String c w :: ws
           end
  end.

(** [s.endswith(suf)] *)
Fixpoint endswith (s suf : string) : bool :=
  String.eqb s suf ||
  match s with
  | EmptyString => false
  | String _ s' => endswith s' suf
  end.

(** [s.rfind(c)], with [-1] when [c] does not occur *)
Fixpoint rfind (c : ascii) (s : string) : Z :=
  match s with
  | EmptyString => -1
  | String a s' =>
      let r := rfind c s' in
      if 0 <=? r then r + 1 else if Ascii.eqb a c then 0 else -1
  end.

(** [s[:i]] and [s[i:]] for [0 <= i] *)
Definition take (i : Z) (s : string) : string := String.substring 0 (Z.to_nat i) s.
Definition drop (i : Z) (s : string) : string :=
  String.substring (Z.to_nat i) (String.length s - Z.to_nat i) s.

End Py.

(** ** The operating system *)

Module Os.
Import Py.

(** An entry of the file system.  A path string names one entry: paths are
    compared as they are written, and the directory part of a path is not
    looked up when an entry is created under it. *)
Inductive node :=
| File (content : string) (mtime : Z)
| Dir (mtime : Z) (writable : bool)
| Link (target : string).

Global Instance node_eq_dec : EqDecision node.
Proof. solve_decision. Defined.

Inductive errno := ENOENT | EEXIST | EISDIR | ELOOP.

Inductive exn :=
| OSError (e : errno)
| SameFileError
| KeyError (k : string)
| TypeError
| AssertionError
| EOFError.

(** [except OSError] also catches [shutil.SameFileError]. *)
Definition is_OSError (e : exn) : bool :=
  match e with
  | OSError _ | SameFileError => true
  | _ => false
  end.

Inductive result (A : Type) :=
| Ok (a : A)
| Raise (e : exn).
Arguments Ok {A} a.
Arguments Raise {A} e.

Record world := World {
  fs : gmap string node;        (* the file system *)
  out : list string;            (* what was printed, oldest first *)
  osenv : gmap string string;   (* os.environ *)
  stdin : list string;          (* the lines input() will read *)
  clock : Z                     (* the time stamped on what is written *)
}.

Definition set_fs (σ : gmap string node) (w : world) : world :=
  World σ (out w) (osenv w) (stdin w) (clock w).

Definition M (A : Type) : Type := world -> world * result A.

Definition ret {A} (a : A) : M A := fun w => (w, Ok a).
Definition raise {A} (e : exn) : M A := fun w => (w, Raise e).
Definition bind {A B} (m : M A) (k : A -> M B) : M B :=
  fun w => match m w with
           | (w', Ok a) => k a w'
           | (w', Raise e) => (w', Raise e)
           end.

(** [try: m except OSError: h] *)
Definition try_OSError {A} (m : M A) (h : M A) : M A :=
  fun w => match m w with
           | (w', Raise e) => if is_OSError e then h w' else (w', Raise e)
           | r => r
           end.

Definition lift {A} (r : result A) : M A := fun w => (w, r).
Definition gets {A} (f : gmap string node -> A) : M A := fun w => (w, Ok (f (fs w))).

(** [print(s)] *)
Definition print (s : string) : M unit :=
  fun w => (World (fs w) (out w ++ [s]) (osenv w) (stdin w) (clock w), Ok tt).

(** [input(prompt)] *)
Definition input (prompt : string) : M string :=
  fun w => match stdin w with
           | [] => (World (fs w) (out w ++ [prompt]) (osenv w) [] (clock w), Raise EOFError)
           | l :: ls => (World (fs w) (out w ++ [prompt]) (osenv w) ls (clock w), Ok l)
           end.

(** [os.getenv(k)] *)
Definition getenv (k : string) : M (option string) := fun w => (w, Ok (osenv w !! k)).

(** A value used as a path: the configuration binds every variable to a
    path string, anything else is rejected. *)
Definition fspath (v : value) : result string :=
  match v with
  | VStr s => Ok s
  | VBool _ => Raise TypeError
  end.

(** *** Paths: [posixpath] *)

Definition startswith_slash (s : string) : bool :=
  match s with
  | String c _ => Ascii.eqb c "/"%char
  | EmptyString => false
  end.

(** [os.path.join(a, b)] *)
Definition join (a b : string) : string :=
  if startswith_slash b then b
  else if String.eqb a "" || endswith a "/" then a ++ b
  else a ++ "/" ++ b.

(** [os.path.basename(p)] *)
Definition basename (p : string) : string := drop (rfind "/"%char p + 1) p.

Definition all_slashes (s : string) : bool :=
  String.eqb (rstrip_slash s) "".

(** [os.path.split(p)] *)
Definition split (p : string) : string * string :=
  let i := rfind "/"%char p + 1 in
  let head := take i p in
  (if all_slashes head then head else rstrip_slash head, drop i p).

Fixpoint all_dots (s : string) : bool :=
  match s with
  | EmptyString => true
  | String c s' => Ascii.eqb c "."%char && all_dots s'
  end.

(** [os.path.splitext(p)]: the last dot after the last slash splits, unless
    only dots stand between that slash and it. *)
Definition splitext (p : string) : string * string :=
  let sepIndex := rfind "/"%char p in
  let dotIndex := rfind "."%char p in
  if (sepIndex <? dotIndex)
     && negb (all_dots (drop (sepIndex + 1) (take dotIndex p)))
  then (take dotIndex p, drop dotIndex p)
  else (p, "").

(** *** Looking entries up *)

(** The kernel follows at most this many symbolic links. *)
Definition MAXSYMLINKS : nat := 40.

Inductive resolved :=
| Found (p : string) (n : node)   (* an entry that is no link *)
| Missing (p : string)            (* the name the chain ends at is free *)
| Loop.                           (* too many links *)

Fixpoint resolve (fuel : nat) (σ : gmap string node) (p : string) : resolved :=
  match σ !! p with
  | None => Missing p
  | Some (Link t) =>
      match fuel with
      | O => Loop
      | S fuel' => resolve fuel' σ t
      end
  | Some n => Found p n
  end.

(** [os.stat(p).st_mtime] *)
Definition stat (σ : gmap string node) (p : string) : result Z :=
  match resolve MAXSYMLINKS σ p with
  | Found _ (File _ m) => Ok m
  | Found _ (Dir m _) => Ok m
  | Found _ (Link _) => Raise (OSError ELOOP)
  | Missing _ => Raise (OSError ENOENT)
  | Loop => Raise (OSError ELOOP)
  end.

(** [os.path.exists(p)]: [os.stat] does not raise *)
Definition exists_ (σ : gmap string node) (p : string) : bool :=
  match stat σ p with
  | Ok _ => true
  | Raise _ => false
  end.

(** [os.path.islink(p)] *)
Definition islink (σ : gmap string node) (p : string) : bool :=
  match σ !! p with
  | Some (Link _) => true
  | _ => false
  end.

(** [os.path.isdir(p)] *)
Definition isdir (σ : gmap string node) (p : string) : bool :=
  match resolve MAXSYMLINKS σ p with
  | Found _ (Dir _ _) => true
  | _ => false
  end.

(** [os.path.isfile(p)] *)
Definition isfile (σ : gmap string node) (p : string) : bool :=
  match resolve MAXSYMLINKS σ p with
  | Found _ (File _ _) => true
  | _ => false
  end.

(** [os.access(p, os.W_OK)] *)
Definition access_w (σ : gmap string node) (p : string) : bool :=
  match resolve MAXSYMLINKS σ p with
  | Found _ (Dir _ wr) => wr
  | Found _ (File _ _) => true
  | _ => false
  end.

(** The text of the regular file [p] names. *)
Definition read (σ : gmap string node) (p : string) : option string :=
  match resolve MAXSYMLINKS σ p with
  | Found _ (File c _) => Some c
  | _ => None
  end.

Definition os_stat (p : string) : M Z := fun w => (w, stat (fs w) p).
Definition os_path_exists (p : string) : M bool := gets (fun σ => exists_ σ p).
Definition os_path_islink (p : string) : M bool := gets (fun σ => islink σ p).
Definition os_path_isdir (p : string) : M bool := gets (fun σ => isdir σ p).
Definition os_path_isfile (p : string) : M bool := gets (fun σ => isfile σ p).
Definition os_access_w (p : string) : M bool := gets (fun σ => access_w σ p).

(** *** Changing entries *)

(** [os.remove(p)] *)
Definition os_remove (p : string) : M unit :=
  fun w => match fs w !! p with
           | None => (w, Raise (OSError ENOENT))
           | Some (Dir _ _) => (w, Raise (OSError EISDIR))
           | Some _ => (set_fs (delete p (fs w)) w, Ok tt)
           end.

(** [os.symlink(src, link)] *)
Definition os_symlink (src link : string) : M unit :=
  fun w => match fs w !! link with
           | Some _ => (w, Raise (OSError EEXIST))
           | None => (set_fs (<[link := Link src]> (fs w)) w, Ok tt)
           end.

(** [os.makedirs(p)] *)
Definition os_makedirs (p : string) : M unit :=
  fun w => match fs w !! p with
           | Some _ => (w, Raise (OSError EEXIST))
           | None => (set_fs (<[p := Dir (clock w) true]> (fs w)) w, Ok tt)
           end.

(** The entry [open(p, 'w')] writes to. *)
Definition write_target (σ : gmap string node) (p : string) : result string :=
  match resolve MAXSYMLINKS σ p with
  | Found q (File _ _) => Ok q
  | Found _ _ => Raise (OSError EISDIR)
  | Missing q => Ok q
  | Loop => Raise (OSError ELOOP)
  end.

(** [f = open(p, 'w')]: the file is created or emptied; the handle is the
    entry written to. *)
Definition open_w (p : string) : M string :=
  fun w => match write_target (fs w) p with
           | Ok q => (set_fs (<[q := File "" (clock w)]> (fs w)) w, Ok q)
           | Raise e => (w, Raise e)
           end.

(** [f.write(s)] *)
Definition f_write (f : string) (s : string) : M unit :=
  fun w => match fs w !! f with
           | Some (File c _) => (set_fs (<[f := File (c ++ s) (clock w)]> (fs w)) w, Ok tt)
           | _ => (w, Ok tt)
           end.

(** [shutil.copy2(src, dst)]: the text and the times of [src] *)
Definition shutil_copy2 (src dst : string) : M unit :=
  fun w =>
    let σ := fs w in
    let dst := if isdir σ dst then join dst (basename src) else dst in
    match resolve MAXSYMLINKS σ src, resolve MAXSYMLINKS σ dst with
    | Found q (File c m), rd =>
        match rd with
        | Found q' (File _ _) =>
            if String.eqb q q' then (w, Raise SameFileError)
            else (set_fs (<[q' := File c m]> σ) w, Ok tt)
        | Found _ _ => (w, Raise (OSError EISDIR))
        | Missing q' => (set_fs (<[q' := File c m]> σ) w, Ok tt)
        | Loop => (w, Raise (OSError ELOOP))
        end
    | Found q _, rd =>
        match rd with
        | Found q' _ => if String.eqb q q' then (w, Raise SameFileError)
                        else (w, Raise (OSError EISDIR))
        | _ => (w, Raise (OSError EISDIR))
        end
    | Missing _, _ => (w, Raise (OSError ENOENT))
    | Loop, _ => (w, Raise (OSError ELOOP))
    end.

(** *** Listing a directory *)

(** [s[len(pre):]] when [s] starts with [pre] *)
Fixpoint strip_prefix (pre s : string) : option string :=
  match pre, s with
  | EmptyString, _ => Some s
  | String a pre', String b s' => if Ascii.eqb a b then strip_prefix pre' s' else None
  | _, EmptyString => None
  end.

(** The name under which the entry [k] stands in the directory [d]. *)
Definition entry_name (d k : string) : option string :=
  match strip_prefix (join d "") k with
  | Some name =>
      if String.eqb name "" || contains "/" name then None else Some name
  | None => None
  end.

(** [os.listdir(d)], in the order the file system gives. *)
Definition listdir (σ : gmap string node) (d : string) : list string :=
  omap (fun kv => entry_name d (fst kv)) (map_to_list σ).

(** [fnmatch(name, '*.module')] for a name [glob] does not hide *)
Definition is_module_name (name : string) : bool :=
  endswith name ".module" && negb (String.prefix "." name).

(** [glob.glob(os.path.join(d, '*.module'))] for a directory name [d] with
    none of the characters [*?[] in it. *)
Definition glob_modules (σ : gmap string node) (d : string) : list string :=
  let dirname := fst (split (join d "*.module")) in
  List.map (join dirname) (List.filter is_module_name (listdir σ dirname)).

End Os.

Declare Scope py_scope.
Delimit Scope py_scope with py.
Notation "x <- c1 ;; c2" := (Os.bind c1 (fun x => c2))
  (at level 100, c1 at next level, right associativity) : py_scope.
Notation "c1 ;; c2" := (Os.bind c1 (fun _ => c2))
  (at level 100, right associativity) : py_scope.

(** ** Local time *)

Module Time.

(** The fields of [time.struct_time] that the index page prints. *)
Record struct_time := StructTime {
  tm_year : Z;
  tm_mon : Z;     (* 1 .. 12 *)
  tm_mday : Z;    (* 1 .. 31 *)
  tm_hour : Z;    (* 0 .. 23 *)
  tm_min : Z      (* 0 .. 59 *)
}.

(** [%b] in the C locale *)
Definition month_abbr (m : Z) : string :=
  nth (Z.to_nat (m - 1))
    ["Jan"; "Feb"; "Mar"; "Apr"; "May"; "Jun";
     "Jul"; "Aug"; "Sep"; "Oct"; "Nov"; "Dec"] "?".

(** [%d], [%H], [%M]: two digits *)
Definition pad2 (n : Z) : string :=
  if n <? 10 then "0" ++ pretty n else pretty n.

(** [time.strftime('%d-%b-%Y %H:%M', t)] *)
Definition strftime (t : struct_time) : string :=
  pad2 (tm_mday t) ++ "-" ++ month_abbr (tm_mon t) ++ "-" ++ pretty (tm_year t)
  ++ " " ++ pad2 (tm_hour t) ++ ":" ++ pad2 (tm_min t).

(** [time.gmtime]: the local time of a machine whose zone is UTC. *)
Definition gmtime (s : Z) : struct_time :=
  let days := s / 86400 in
  let secs := s mod 86400 in
  let z := days + 719468 in
  let era := z / 146097 in
  let doe := z - era * 146097 in
  let yoe := (doe - doe / 1460 + doe / 36524 - doe / 146096) / 365 in
  let doy := doe - (365 * yoe + yoe / 4 - yoe / 100) in
  let mp := (5 * doy + 2) / 153 in
  let d := doy - (153 * mp + 2) / 5 + 1 in
  let m := if mp <? 10 then mp + 3 else mp - 9 in
  let y := yoe + era * 400 + (if m <=? 2 then 1 else 0) in
  StructTime y m d (secs / 3600) (secs mod 3600 / 60).

End Time.

(** ** The program *)

Import Py Os Time.
Local Open Scope py_scope.

(** The tree environment: section name to (variable name to path), and the
    section [default] with [name], [current] and the like. *)
Definition environ : Type := dict (dict value).

(** [d[k]] *)
Definition get {V} (d : dict V) (k : string) : M V :=
  match getitem d k with
  | Some v => ret v
  | None => raise (KeyError k)
  end.

(** [for x in l: s = f(s, x)] *)
Fixpoint for_each {A S} (f : S -> A -> M S) (s : S) (l : list A) : M S :=
  match l with
  | [] => ret s
  | a :: l' => s' <- f s a;; for_each f s' l'
  end.

(** [if c: m] *)
Definition when (c : bool) (m : M unit) : M unit := if c then m else ret tt.

Definition table_header : string :=
  "<table id=" ++ dq ++ "list" ++ dq ++ " cellpadding=" ++ dq ++ "0.1em" ++ dq ++ " cellspacing=" ++ dq ++ "0" ++ dq ++ ">" ++ nl
  ++ "<colgroup><col width=" ++ dq ++ "55%" ++ dq ++ "/><col width=" ++ dq ++ "20%" ++ dq ++ "/><col width=" ++ dq ++ "25%" ++ dq ++ "/></colgroup>" ++ nl
  ++ "<thead>" ++ nl
  ++ "    <tr><th><a href=" ++ dq ++ "?C=N&O=A" ++ dq ++ ">File Name</a>&nbsp;<a href=" ++ dq ++ "?C=N&O=D" ++ dq ++ ">&nbsp;&darr;&nbsp;</a></th><th><a href=" ++ dq ++ "?C=S&O=A" ++ dq ++ ">File Size</a>&nbsp;<a href=" ++ dq ++ "?C=S&O=D" ++ dq ++ ">&nbsp;&darr;&nbsp;</a></th><th><a href=" ++ dq ++ "?C=M&O=A" ++ dq ++ ">Date</a>&nbsp;<a href=" ++ dq ++ "?C=M&O=D" ++ dq ++ ">&nbsp;&darr;&nbsp;</a></th></tr>" ++ nl
  ++ "</thead><tbody>" ++ nl
  ++ "    <tr><td><a href=" ++ dq ++ "../" ++ dq ++ ">Parent directory/</a></td><td>-</td><td>-</td></tr>".

Definition table_footer : string :=
  "</tbody></table>".

Definition page_header (url name : string) : string :=
  "<?xml version=" ++ dq ++ "1.0" ++ dq ++ " encoding=" ++ dq ++ "UTF-8" ++ dq ++ "?>" ++ nl
  ++ "<!DOCTYPE html PUBLIC " ++ dq ++ "-//W3C//DTD XHTML 1.0 Strict//EN" ++ dq ++ " " ++ dq ++ "http://www.w3.org/TR/xhtml1/DTD/xhtml1-strict.dtd" ++ dq ++ ">" ++ nl
  ++ "<html xmlns=" ++ dq ++ "http://www.w3.org/1999/xhtml" ++ dq ++ ">" ++ nl
  ++ "<head><meta name=" ++ dq ++ "viewport" ++ dq ++ " content=" ++ dq ++ "width=device-width" ++ dq ++ "/><meta http-equiv=" ++ dq ++ "content-type" ++ dq ++ " content=" ++ dq ++ "text/html; charset=utf-8" ++ dq ++ "/><style type=" ++ dq ++ "text/css" ++ dq ++ ">body,html {background:#fff;font-family:" ++ dq ++ "Bitstream Vera Sans" ++ dq ++ "," ++ dq ++ "Lucida Grande" ++ dq ++ "," ++ dq ++ "Lucida Sans Unicode" ++ dq ++ ",Lucidux,Verdana,Lucida,sans-serif;}tr:nth-child(even) {background:#f4f4f4;}th,td {padding:0.1em 0.5em;}th {text-align:left;font-weight:bold;background:#eee;border-bottom:1px solid #aaa;}#list {border:1px solid #aaa;width:100%%;}a {color:#a33;}a:hover {color:#e33;}</style>" ++ nl
  ++ "<link rel=" ++ dq ++ "stylesheet" ++ dq ++ " href=" ++ dq ++ url ++ "/css/sas.css" ++ dq ++ " type=" ++ dq ++ "text/css" ++ dq ++ "/>" ++ nl
  ++ "<title>Index of /sas/" ++ name ++ "/env/</title>" ++ nl
  ++ "</head><body><h1>Index of /sas/" ++ name ++ "/env/</h1>" ++ nl.

Definition page_footer (url location name : string) : string :=
  "<h3><a href='" ++ url ++ "/sas/'>" ++ location ++ "</a></h3>" ++ nl
  ++ "<p>This directory contains links to the contents of" ++ nl
  ++ "environment variables defined by the tree product, version " ++ name ++ "." ++ nl
  ++ "To examine the <em>types</em> of files contained in each environment variable" ++ nl
  ++ "directory, visit <a href=" ++ dq ++ "/datamodel/files/" ++ dq ++ ">the datamodel.</a></p>" ++ nl
  ++ "</body></html>" ++ nl.

Definition shell_header (name term base product_dir : string) : string :=
  "# Set up tree/" ++ name ++ " for " ++ term ++ nl
  ++ base ++ " TREE_DIR " ++ product_dir ++ nl
  ++ base ++ " TREE_VER " ++ term ++ nl
  ++ base ++ " PATH $TREE_DIR/bin:$PATH" ++ nl
  ++ base ++ " PYTHONPATH $TREE_DIR/python:$PYTHONPATH" ++ nl
  ++ "                ".

Definition module_header (product_dir name : string) : string :=
  "#%Module1.0" ++ nl
  ++ "proc ModulesHelp { } {" ++ nl
  ++ "    global product version" ++ nl
  ++ "    puts stderr " ++ dq ++ "This module adds $product/$version to various paths" ++ dq ++ nl
  ++ "}" ++ nl
  ++ "set name tree" ++ nl
  ++ "set product tree" ++ nl
  ++ "set version " ++ name ++ nl
  ++ "conflict $product" ++ nl
  ++ "module-whatis " ++ dq ++ "Sets up $product/$version in your environment" ++ dq ++ nl
  ++ nl
  ++ "set PRODUCT_DIR " ++ product_dir ++ nl
  ++ "setenv [string toupper $product]_DIR $PRODUCT_DIR" ++ nl
  ++ "setenv [string toupper $product]_VER $version" ++ nl
  ++ "prepend-path PATH $PRODUCT_DIR/bin" ++ nl
  ++ "prepend-path PYTHONPATH $PRODUCT_DIR/python" ++ nl
  ++ nl
  ++ "                ".

Definition table_row (name stattime : string) : string :=
  "    <tr><td><a href=" ++ dq ++ name ++ "/" ++ dq ++ ">" ++ name
  ++ "/</a></td><td>-</td><td>" ++ stattime ++ "</td></tr>" ++ nl.

Definition _remove_link (link : string) : M unit :=
  b <- os_path_islink link;;
  when b (os_remove link).

Definition make_symlink (src link : string) : M unit :=
  _remove_link link;;
  os_symlink src link.

Section SetupTree.

(** [time.localtime]: the zone of the machine. *)
Variable localtime : Z -> struct_time.

(** The body of the inner loop of [create_index_table]; the table so far
    is returned unchanged where the source says [continue]. *)
Definition index_variable (envdir section : string) (table : string)
    (item : string * value) : M string :=
  let '(tree_name, tree_path) := item in
  let skipmsg := "Skipping " ++ tree_name ++ " for " ++ section in
  if contains "_root" tree_name then ret table
  else
    src <- lift (fspath tree_path);;
    let link := join envdir (upper tree_name) in
    st <- try_OSError
            (m <- os_stat src;; ret (Some (strftime (localtime m))))
            (print (src ++ " does not appear to exist, skipping...");;
             _remove_link link;;
             ret None);;
    match st with
    | None => ret table
    | Some stattime =>
        if String.eqb section "general" && contains "sas_base_dir" tree_name
        then print skipmsg;; ret table
        else
          (if String.eqb section "general"
              && in_list tree_name ["cas_load"; "staging_data"]
           then
             e <- os_path_exists src;;
             if e then make_symlink src link else print skipmsg
           else
             print ("Processing " ++ tree_name ++ " for " ++ section);;
             make_symlink src link);;
          e <- os_path_exists link;;
          if e then ret (table ++ table_row (upper tree_name) stattime)
          else ret table
    end.

Definition index_section (envdir : string) (table : string)
    (item : string * dict value) : M string :=
  let '(section, values) := item in
  if String.eqb section "default" then ret table
  else for_each (index_variable envdir section) table values.

Definition create_index_table (environ : environ) (envdir : string) : M string :=
  table <- for_each (index_section envdir) table_header environ;;
  ret (table ++ table_footer).

Definition create_index_page (environ : environ) (defaults : dict value)
    (envdir : string) : M string :=
  url <- get defaults "url";;
  name <- get defaults "name";;
  let index := page_header (str url) (str name) in
  table <- create_index_table environ envdir;;
  let index := index ++ table in
  location <- get defaults "location";;
  ret (index ++ page_footer (str url) (str location) (str name)).

Definition create_env (environ : environ) (mirror verbose : bool) : M unit :=
  d <- get environ "default";;
  let defaults :=
    setitem d "url"
      (VStr (if mirror then "https://data.mirror.sdss.org" else "https://data.sdss.org")) in
  let defaults :=
    setitem defaults "location"
      (VStr (if mirror then "SDSS-IV Science Archive Mirror (SAM)"
             else "SDSS-IV Science Archive Server (SAS)")) in
  general <- get environ "general";;
  sas_root <- get general "sas_root";;
  sas_root <- lift (fspath sas_root);;
  e <- os_path_exists sas_root;;
  if negb e then
    when verbose (print (sas_root ++ " doesn't exist, skipping env link creation."))
  else
    when verbose (print ("Found " ++ sas_root ++ "."));;
    let envdir := join sas_root "env" in
    e <- os_path_exists envdir;;
    when (negb e) (os_makedirs envdir);;
    a <- os_access_w envdir;;
    if negb a then ret tt
    else
      index <- create_index_page environ defaults envdir;;
      let indexfile := join envdir "index.html" in
      f <- open_w indexfile;;
      f_write f index.

End SetupTree.

Definition write_header (term tree_dir : string) (name : value) : M string :=
  if negb (in_list term ["bash"; "tsch"; "modules"]) then raise AssertionError
  else
    let product_dir := rstrip_slash tree_dir in
    let base := if String.eqb term "bash" then "export" else "setenv" in
    let hdr :=
      if negb (String.eqb term "modules")
      then shell_header (str name) term base product_dir
      else module_header product_dir (str name) in
    ret (strip hdr).

Definition write_version (name : value) : string :=
  "#%Module1.0" ++ nl ++ "set ModulesVersion " ++ str name.

(** [exts[term]] *)
Definition exts : dict string :=
  [("bash", ".sh"); ("tsch", ".csh"); ("modules", ".module")].

(** [cmd.format(k, v)] *)
Definition cmd (term k v : string) : string :=
  if String.eqb term "bash" then "export " ++ k ++ "=" ++ v ++ nl
  else "setenv " ++ k ++ " " ++ v ++ nl.

Definition write_variable (term f : string) (_ : unit) (item : string * value) : M unit :=
  let '(tree_name, tree_path) := item in
  f_write f (cmd term (upper tree_name) (str tree_path)).

Definition write_section (term f : string) (_ : unit) (item : string * dict value) : M unit :=
  let '(key, values) := item in
  if negb (String.eqb key "default") then
    f_write f ("#" ++ nl ++ "# " ++ key ++ nl ++ "#" ++ nl);;
    for_each (write_variable term f) tt values
  else ret tt.

Definition write_file (environ : environ) (term out_dir tree_dir : string) : M unit :=
  default <- get environ "default";;
  name <- get default "name";;
  header <- write_header term tree_dir name;;
  ext <- get exts term;;
  name_s <- lift (fspath name);;
  let filename := join out_dir (name_s ++ ext) in
  f <- open_w filename;;
  f_write f (header ++ nl);;
  for_each (write_section term f) tt environ;;
  let modules_version := write_version name in
  if String.eqb term "modules" then
    current <- get default "current";;
    if truthy current then
      let version_name := join out_dir ".version" in
      f <- open_w version_name;;
      f_write f modules_version
    else ret tt
  else ret tt.

(** The body of the loop of [copy_modules]. *)
Definition copy_module (tree_mod : string) (_ : unit) (mfile : string) : M unit :=
  let base := fst (splitext (basename mfile)) in
  let tree_out := join tree_mod base in
  shutil_copy2 mfile tree_out.

(** The start of [copy_modules]: find or define a modules path. *)
Definition find_modules_path (modules_path : option string) (verbose : bool) : M string :=
  match modules_path with
  | Some (String c p) => ret (String c p)
  | _ =>
      modulepath <- getenv "MODULEPATH";;
      match modulepath with
      | Some (String c mp) =>
          let split_mods := split_colon (String c mp) in
          when ((1 <? length split_mods)%nat && verbose)
            (print ("Multiple module paths found.  Using top one: " ++ hd "" split_mods));;
          ret (hd "" split_mods)
      | _ => input "Enter the root path for your module files:"
      end
  end.

Definition copy_modules (filespath : string) (modules_path : option string)
    (verbose : bool) : M unit :=
  modules_path <- find_modules_path modules_path verbose;;
  let tree_mod := join modules_path "tree" in
  d <- os_path_isdir tree_mod;;
  when (negb d) (os_makedirs tree_mod);;
  when verbose (print ("Copying modules from etc/ into " ++ tree_mod));;
  module_files <- gets (fun σ => glob_modules σ filespath);;
  for_each (copy_module tree_mod) tt module_files;;
  let version := join filespath ".version" in
  v <- os_path_isfile version;;
  when v (shutil_copy2 version tree_mod).

(** ** What the calls do to the file system *)

(** The file system after [_remove_link(link)]. *)
Definition remove_link (σ : gmap string node) (link : string) : gmap string node :=
  if islink σ link then delete link σ else σ.

(** A file or a directory stands where the link should go. *)
Definition blocked (σ : gmap string node) (link : string) : bool :=
  match σ !! link with
  | Some (File _ _) | Some (Dir _ _) => true
  | _ => false
  end.

(** The world after [print(s)]. *)
Definition say (s : string) (w : world) : world :=
  World (fs w) (out w ++ [s]) (osenv w) (stdin w) (clock w).

(** The name of the link of a variable. *)
Definition link_path (envdir tree_name : string) : string :=
  join envdir (upper tree_name).

(** The environment without the variables whose name has [_root] in it. *)
Definition drop_root (env : environ) : environ :=
  List.map (fun sv : string * dict value =>
              (fst sv, List.filter (fun nv : string * value => negb (contains "_root" (fst nv))) (snd sv)))
           env.

(** ** The rows of the index table, as the specification words them *)

Section IndexRows.

Variable localtime : Z -> struct_time.

(** The world once the variable [item] of [section] has been dealt with. *)
Definition after_variable (envdir section : string) (item : string * value)
    (w : world) : world :=
  fst (index_variable localtime envdir section "" item w).

(** The world once a whole section has been dealt with. *)
Definition after_section (envdir : string) (item : string * dict value)
    (w : world) : world :=
  fst (index_section localtime envdir "" item w).

(** The modification time of the target of a variable that gets as far as
    its link: no skip rule passes it over and its target can be statted. *)
Definition reaches_link (section : string) (item : string * value)
    (w : world) : option Z :=
  if contains "_root" (fst item) then None
  else match snd item with
       | VStr path =>
           match stat (fs w) path with
           | Ok m =>
               if String.eqb section "general" && contains "sas_base_dir" (fst item)
               then None else Some m
           | Raise _ => None
           end
       | VBool _ => None
       end.

(** One row for a variable whose link exists once it has been dealt with:
    the name as a directory link, [-] for the size, the date of the
    target. *)
Definition row_of (envdir section : string) (item : string * value)
    (w : world) : list string :=
  match reaches_link section item w with
  | Some m =>
      if exists_ (fs (after_variable envdir section item w)) (link_path envdir (fst item))
      then ["    <tr><td><a href=" ++ dq ++ upper (fst item) ++ "/" ++ dq ++ ">"
            ++ upper (fst item) ++ "/</a></td><td>" ++ "-" ++ "</td><td>"
            ++ strftime (localtime m) ++ "</td></tr>" ++ nl]
      else []
  | None => []
  end.

(** The rows of a section, in the order of its variables. *)
Fixpoint section_rows (envdir section : string) (items : dict value)
    (w : world) : list string :=
  match items with
  | [] => []
  | item :: items' =>
      row_of envdir section item w
      ++ section_rows envdir section items' (after_variable envdir section item w)
  end.

(** The rows of the table, in the order of the sections. *)
Fixpoint table_rows (envdir : string) (env : environ) (w : world) : list string :=
  match env with
  | [] => []
  | item :: env' =>
      (if String.eqb (fst item) "default" then []
       else section_rows envdir (fst item) (snd item) w)
      ++ table_rows envdir env' (after_section envdir item w)
  end.

End IndexRows.

(** The text of a list of rows. *)
Definition join_rows (rows : list string) : string := fold_right String.append "" rows.

(** ** The body of an environment file, as the specification words it *)

(** The world in which the file [q] holds the text [c]. *)
Definition put (q c : string) (w : world) : world :=
  set_fs (<[q := File c (clock w)]> (fs w)) w.

(** The comment that names a section. *)
Definition separator (section : string) : string :=
  "#" ++ nl ++ "# " ++ section ++ nl ++ "#" ++ nl.

(** For every section but [default], the separator and then one line for
    each variable, in the stored order. *)
Definition body (term : string) (env : environ) : string :=
  join_rows
    (flat_map
       (fun sv : string * dict value =>
          separator (fst sv)
          :: List.map (fun nv : string * value => cmd term (upper (fst nv)) (str (snd nv)))
               (snd sv))
       (List.filter (fun sv : string * dict value => negb (String.eqb (fst sv) "default")) env)).

(** The body in the posix-shell dialect. *)
Definition shell_body (env : environ) : string :=
  join_rows
    (flat_map
       (fun sv : string * dict value =>
          separator (fst sv)
          :: List.map (fun nv : string * value =>
                         "export " ++ upper (fst nv) ++ "=" ++ str (snd nv) ++ nl)
               (snd sv))
       (List.filter (fun sv : string * dict value => negb (String.eqb (fst sv) "default")) env)).

(** The header [write_header] returns for a dialect it knows. *)
Definition header_text (term tree_dir name : string) : string :=
  strip (if negb (String.eqb term "modules")
         then shell_header name term (if String.eqb term "bash" then "export" else "setenv")
                (rstrip_slash tree_dir)
         else module_header (rstrip_slash tree_dir) name).

(** The last character of a string. *)
Fixpoint last_char (s : string) : option ascii :=
  match s with
  | EmptyString => None
  | String c EmptyString => Some c
  | String _ s' => last_char s'
  end.

(** ** Installing the module files *)

(** An entry that is free or a regular file: [shutil.copy2] writes to it
    under its own name. *)
Definition is_plain (o : option node) : bool :=
  match o with
  | Some (Dir _ _) | Some (Link _) => false
  | _ => true
  end.

(** Where [copy_modules] copies the file [mfile] to. *)
Definition dest (tree_mod mfile : string) : string :=
  join tree_mod (fst (splitext (basename mfile))).

(** ** What a run does to the links, variable by variable *)





(** Resolving [p] never passes through one of the names [K]. *)
Fixpoint chain_clear (n : nat) (σ : gmap string node) (K : list string) (p : string) : bool :=
  negb (in_list p K)
  && match n with
     | O => true
     | S n' =>
         match σ !! p with
         | Some (Link t) => chain_clear n' σ K t
         | _ => true
         end
     end.


(** The links of the variables of an environment. *)
Definition all_links (envdir : string) (env : environ) : list string :=
  flat_map (fun sv : string * dict value =>
              if String.eqb (fst sv) "default" then []
              else List.map (fun nv : string * value => link_path envdir (fst nv)) (snd sv))
           env.

(** The names [create_env] may write to. *)
Definition managed (envdir : string) (env : environ) : list string :=
  envdir :: join envdir "index.html" :: all_links envdir env.

Section Plan.

Variable localtime : Z -> struct_time.



End Plan.

(** The targets of the variables are reached without going through a name
    [create_env] may write to. *)
Definition targets_clear (σ0 : gmap string node) (K : list string) (env : environ) : bool :=
  forallb (fun sv : string * dict value =>
             String.eqb (fst sv) "default"
             || forallb (fun nv : string * value =>
                           contains "_root" (fst nv)
                           || match snd nv with
                              | VStr path => chain_clear MAXSYMLINKS σ0 K path
                              | VBool _ => true
                              end)
                        (snd sv))
          env.


(** The targets, the archive root, the env directory and its index page do
    not depend on what [create_env] writes. *)
Definition independent (σ0 : gmap string node) (env : environ) : bool :=
  match getitem env "general" with
  | Some general =>
      match getitem general "sas_root" with
      | Some (VStr sas_root) =>
          let envdir := join sas_root "env" in
          let K := managed envdir env in
          chain_clear MAXSYMLINKS σ0 K sas_root
          && targets_clear σ0 K env
          && negb (islink σ0 envdir)
          && negb (islink σ0 (join envdir "index.html"))
      | _ => true
      end
  | None => true
  end.


(** The text of the index page with the rows [rows]. *)
Definition index_page (url name location rows : string) : string :=
  page_header url name ++ (table_header ++ rows ++ table_footer)
  ++ page_footer url location name.

Section Phases.

Variable localtime : Z -> struct_time.

(** The end of [create_env]: the links, the table and the page. *)
Definition link_phase (env : environ) (defaults : dict value) (envdir : string) : M unit :=
  (index <- create_index_page localtime env defaults envdir;;
   f <- open_w (join envdir "index.html");;
   f_write f index)%py.

(** The middle of [create_env]: the env directory. *)
Definition dir_phase (env : environ) (defaults : dict value) (envdir : string) : M unit :=
  (e <- os_path_exists envdir;;
   when (negb e) (os_makedirs envdir);;
   a <- os_access_w envdir;;
   if negb a then ret tt else link_phase env defaults envdir)%py.

End Phases.

(** The [defaults] of [create_env]. *)
Definition defaults_of (d : dict value) (mirror : bool) : dict value :=
  setitem
    (setitem d "url"
       (VStr (if mirror then "https://data.mirror.sdss.org" else "https://data.sdss.org")))
    "location"
    (VStr (if mirror then "SDSS-IV Science Archive Mirror (SAM)"
           else "SDSS-IV Science Archive Server (SAS)")).


(** ** Sample configurations *)

(** A configuration with a [_root] variable outside [general], an optional
    directory, the base directory and a directory that is not there yet. *)
Definition sample_env : environ :=
  [("default", [("name", VStr "v1"); ("current", VBool true)]);
   ("general", [("sas_root", VStr "/sas"); ("cas_load", VStr "/data/cas");
                ("sas_base_dir", VStr "/data")]);
   ("cat", [("data_root", VStr "/data/spectro"); ("spectro", VStr "/data/spectro");
            ("late", VStr "/data/late")])].

(** The configuration of the example of the specification. *)
Definition spec_env : environ :=
  [("default", [("name", VStr "v1"); ("current", VBool true)]);
   ("general", [("sas_root", VStr "/data")]);
   ("cat", [("spectro", VStr "/data/spectro")])].


Definition newer_env : environ :=
  [("default", [("name", VStr "v1"); ("current", VBool true)]);
   ("general", [("sas_root", VStr "/sas")]);
   ("cat", [("spectro", VStr "/data/spectro")])].

(** A configuration with a variable that points into the env directory. *)
Definition inward_env : environ :=
  [("default", [("name", VStr "v1"); ("current", VBool true)]);
   ("general", [("sas_root", VStr "/sas")]);
   ("cat", [("alias", VStr "/sas/env/SPECTRO"); ("spectro", VStr "/data/spectro")])].

(** An archive with its root, its env directory, two data directories, a
    stale link and the directory the environment files are written to. *)
Definition sample_world : world :=
  World (list_to_map [("/sas", Dir 0 true); ("/sas/env", Dir 0 true);
                      ("/sas/env/LATE", Link "/data/late");
                      ("/data", Dir 0 true);
                      ("/data/cas", Dir 86400 true);
                      ("/data/spectro", Dir 1531578696 true);
                      ("/t/etc", Dir 0 true)])
    [] ∅ [] 100.

(** A machine without the archive. *)
Definition bare_world : world :=
  World (list_to_map [("/t/etc", Dir 0 true)]) [] ∅ [] 100.

(** A machine on which the environment files of [v1] have been written. *)
Definition etc_world : world :=
  World (list_to_map [("/t/etc", Dir 0 true);
                      ("/t/etc/v1.module", File "#%Module1.0" 1531578696);
                      ("/t/etc/v1.sh", File "# Set up tree/v1 for bash" 1531578697);
                      ("/t/etc/.version", File "#%Module1.0" 1531578698)])
    [] ∅ [] 100.

(** ** The driver *)

(** [os.environ[k] = v] *)
Definition os_environ_set (k v : string) : M unit :=
  fun w => (World (fs w) (out w) (<[k := v]> (osenv w)) (stdin w) (clock w), Ok tt).

(** [bool(s)] for a string that may be [None] *)
Definition given (s : option string) : bool :=
  match s with
  | Some (String _ _) => true
  | _ => false
  end.

Definition check_sas_base_dir (root : option string) : M unit :=
  sasbasedir <- (if given root then ret root else getenv "SAS_BASE_DIR");;
  sasbasedir <- match sasbasedir with
                | Some (String c s) => ret (String c s)
                | _ => input "Enter a path for SAS_BASE_DIR: "
                end;;
  os_environ_set "SAS_BASE_DIR" sasbasedir.

(** What [parse_args] returns. *)
Module Opts.
Record t := Make {
  verbose : bool;
  root : option string;
  treedir : option string;
  modulesdir : option string;
  env : bool;
  mirror : bool;
  only : option string
}.
End Opts.

(** [fnmatch(name, '*.cfg')] for a name [glob] does not hide *)
Definition is_cfg_name (name : string) : bool :=
  endswith name ".cfg" && negb (String.prefix "." name).

(** [glob.glob(os.path.join(d, '*.cfg'))] for a directory name [d] with
    none of the characters [*?[] in it. *)
Definition glob_cfgs (σ : gmap string node) (d : string) : list string :=
  let dirname := fst (split (join d "*.cfg")) in
  List.map (join dirname) (List.filter is_cfg_name (listdir σ dirname)).

Section Driver.

Variable localtime : Z -> struct_time.

(** [get_tree(config).environ]: the loader of the package [tree], which this
    script imports. *)
Variable get_tree : string -> M environ.

(** The body of the loop of [main]. *)
Definition main_config (opts : Opts.t) (etcdir treedir : string) (_ : unit)
    (cfgfile : string) : M unit :=
  tree <- get_tree cfgfile;;
  if Opts.env opts then
    if given (Opts.only opts) && negb (contains (default "" (Opts.only opts)) cfgfile)
    then ret tt
    else create_env localtime tree (Opts.mirror opts) false
  else
    write_file tree "modules" etcdir treedir;;
    write_file tree "bash" etcdir treedir;;
    write_file tree "tsch" etcdir treedir;;
    copy_modules etcdir (Opts.modulesdir opts) (Opts.verbose opts).

Definition main (opts : Opts.t) : M unit :=
  treedir <- match Opts.treedir opts with
             | Some t => ret t
             | None => raise TypeError
             end;;
  let datadir := join treedir "data" in
  let etcdir := join treedir "etc" in
  configs <- gets (fun σ => glob_cfgs σ datadir);;
  check_sas_base_dir (Opts.root opts);;
  for_each (main_config opts etcdir treedir) tt configs.

End Driver.

(** ** What a run leaves alone *)

(** An entry seen without the symbolic links: a file, a directory or
    nothing. *)
Definition solid (o : option node) : option node :=
  match o with
  | Some (Link _) => None
  | _ => o
  end.

(** The files and the directories are the same in both. *)
Definition same_solid (a b : option node) : Prop := solid a = solid b.

(** The entry is kept: a directory as it was, a file still a file. *)
Definition kept (a b : option node) : Prop :=
  match a with
  | Some (Dir m wr) => b = Some (Dir m wr)
  | Some (File _ _) => exists c m, b = Some (File c m)
  | _ => True
  end.

(** The entry stays: a directory or a symbolic link as it was, a file still
    a file. *)
Definition stays (a b : option node) : Prop :=
  match a with
  | Some (File _ _) => exists c m, b = Some (File c m)
  | Some n => b = Some n
  | None => True
  end.

(** Whatever the outcome of [m], every name has after it an entry that [R]
    allows for the entry it had before. *)
Definition preserves {A} (R : option node -> option node -> Prop) (m : M A) : Prop :=
  forall w w' r, m w = (w', r) -> forall k, R (fs w !! k) (fs w' !! k).

(** The text before the first colon. *)
Fixpoint before_colon (s : string) : string :=
  match s with
  | EmptyString => EmptyString
  | String c s' => if Ascii.eqb c ":"%char then EmptyString else String c (before_colon s')
  end.

(** The body in the dialects [tsch] and [modules]. *)
Definition setenv_body (env : environ) : string :=
  join_rows
    (flat_map
       (fun sv : string * dict value =>
          separator (fst sv)
          :: List.map (fun nv : string * value =>
                         "setenv " ++ upper (fst nv) ++ " " ++ str (snd nv) ++ nl)
               (snd sv))
       (List.filter (fun sv : string * dict value => negb (String.eqb (fst sv) "default")) env)).

(** ** More sample configurations *)

(** A configuration whose [default] section has no [name]. *)
Definition nameless_env : environ :=
  [("default", [("current", VBool true)]);
   ("general", [("sas_root", VStr "/sas")]);
   ("cat", [("spectro", VStr "/data/spectro")])].


(** An archive whose env directory may not be written to. *)
Definition readonly_world : world :=
  World (list_to_map [("/sas", Dir 0 true); ("/sas/env", Dir 0 false);
                      ("/data/spectro", Dir 1531578696 true)])
    [] ∅ [] 100.


(** A shell with two module paths and the archive root set. *)
Definition shell_world : world :=
  World (list_to_map [("/t/etc", Dir 0 true)]) []
    (<["MODULEPATH" := "/m:/n"]> (<["SAS_BASE_DIR" := "/data"]> ∅)) [] 100.

(** A modules root in which [tree] is a regular file. *)
Definition taken_world : world :=
  World (list_to_map [("/t/etc", Dir 0 true);
                      ("/t/etc/v1.module", File "#%Module1.0" 1531578696);
                      ("/m/tree", File "" 0)])
    [] ∅ [] 100.

(** A directory that is named like a module file. *)
Definition dir_module_world : world :=
  World (list_to_map [("/t/etc", Dir 0 true);
                      ("/t/etc/v1.module", File "#%Module1.0" 1531578696);
                      ("/t/etc/d.module", Dir 0 true)])
    [] ∅ [] 100.

(** A checkout of the product with one configuration file. *)
Definition tree_world : world :=
  World (list_to_map [("/t/data", Dir 0 true);
                      ("/t/data/v1.cfg", File "[general]" 1531578696);
                      ("/t/etc", Dir 0 true)])
    [] (<["SAS_BASE_DIR" := "/data"]> ∅) [] 100.

(** A loader that gives the sample configuration for every file. *)
Definition sample_loader (cfgfile : string) : M environ := ret sample_env.

(** [setup_tree.py -t /t -m /m] *)
Definition sample_opts : Opts.t :=
  Opts.Make false None (Some "/t") (Some "/m") false false None.

(** * Properties *)

(** ** Strings *)

Lemma append_cons c (s t : string) : String c s ++ t = String c (s ++ t).
Proof. reflexivity. Qed.

Lemma append_nil_r (s : string) : s ++ "" = s.
Proof. induction s as [|c s IH]; [done|]. by rewrite append_cons, IH. Qed.

Lemma append_assoc (a b c : string) : (a ++ b) ++ c = a ++ b ++ c.
Proof. induction a as [|x a IH]; [done|]. by rewrite !append_cons, IH. Qed.

Lemma join_rows_app (a b : list string) :
  join_rows (a ++ b) = join_rows a ++ join_rows b.
Proof.
  induction a as [|x a IH]; [done|]. cbn [app join_rows fold_right].
  fold (join_rows (a ++ b)). fold (join_rows a). by rewrite IH, append_assoc.
Qed.

(** ** The calls *)

Lemma set_fs_id w : set_fs (fs w) w = w.
Proof. by destruct w. Qed.

Lemma fs_set_fs σ w : fs (set_fs σ w) = σ.
Proof. done. Qed.

Lemma fs_say s w : fs (say s w) = fs w.
Proof. done. Qed.

Lemma set_fs_set_fs σ σ' w : set_fs σ (set_fs σ' w) = set_fs σ w.
Proof. done. Qed.

Lemma print_say s w : print s w = (say s w, Ok tt).
Proof. done. Qed.

Lemma stat_raise σ p e : stat σ p = Raise e -> is_OSError e = true.
Proof.
  unfold stat. destruct (resolve MAXSYMLINKS σ p) as [q [| |]| |]; intros [= <-]; done.
Qed.

Lemma exists_stat σ p : exists_ σ p = true <-> exists m, stat σ p = Ok m.
Proof.
  unfold exists_. destruct (stat σ p); split; try done; eauto. by intros [? ?].
Qed.

Lemma exists_stat_false σ p : exists_ σ p = false <-> exists e, stat σ p = Raise e.
Proof.
  unfold exists_. destruct (stat σ p); split; try done; eauto. by intros [? ?].
Qed.

Lemma remove_link_spec link w :
  _remove_link link w = (set_fs (remove_link (fs w) link) w, Ok tt).
Proof.
  unfold _remove_link, remove_link, bind, os_path_islink, gets, when, os_remove, islink.
  destruct (fs w !! link) as [[| |]|] eqn:E; rewrite ?E, ?set_fs_id; done.
Qed.

Lemma remove_link_lookup σ link :
  remove_link σ link !! link = if blocked σ link then σ !! link else None.
Proof.
  unfold remove_link, islink, blocked.
  destruct (σ !! link) as [[| |]|] eqn:E; rewrite ?lookup_delete_eq; done.
Qed.

Lemma remove_link_lookup_ne σ link k : k <> link -> remove_link σ link !! k = σ !! k.
Proof.
  unfold remove_link. intros. destruct (islink σ link); [by rewrite lookup_delete_ne|done].
Qed.

Lemma make_symlink_spec src link w :
  make_symlink src link w =
    if blocked (fs w) link then (w, Raise (OSError EEXIST))
    else (set_fs (<[link := Link src]> (fs w)) w, Ok tt).
Proof.
  unfold make_symlink, bind. rewrite remove_link_spec. unfold os_symlink.
  rewrite fs_set_fs, remove_link_lookup. unfold remove_link, blocked, islink.
  destruct (fs w !! link) as [[| |]|] eqn:E; rewrite ?set_fs_id, ?set_fs_set_fs, ?insert_delete_eq; done.
Qed.

Section SetupTreeFacts.

Variable localtime : Z -> struct_time.

(** A variable whose name has [_root] in it is passed over in silence. *)
Lemma index_variable_root envdir section table name path w :
  contains "_root" name = true ->
  index_variable localtime envdir section table (name, path) w = (w, Ok table).
Proof. unfold index_variable. by intros ->. Qed.

(** What [index_variable] does when the target cannot be reached. *)
Lemma index_variable_unreachable envdir section table name path w e :
  contains "_root" name = false ->
  stat (fs w) path = Raise e ->
  index_variable localtime envdir section table (name, VStr path) w =
    (set_fs (remove_link (fs w) (link_path envdir name))
       (say (path ++ " does not appear to exist, skipping...") w), Ok table).
Proof.
  intros Hr Hs. unfold index_variable. rewrite Hr.
  unfold bind, lift, fspath, try_OSError, os_stat. rewrite Hs, (stat_raise _ _ _ Hs).
  by rewrite print_say, remove_link_spec.
Qed.

(** What [index_variable] does when the target can be reached. *)
Lemma index_variable_reachable envdir section table name path w m :
  contains "_root" name = false ->
  stat (fs w) path = Ok m ->
  let link := link_path envdir name in
  let general := String.eqb section "general" in
  index_variable localtime envdir section table (name, VStr path) w =
    if general && contains "sas_base_dir" name
    then (say ("Skipping " ++ name ++ " for " ++ section) w, Ok table)
    else
      let w0 := if general && in_list name ["cas_load"; "staging_data"] then w
                else say ("Processing " ++ name ++ " for " ++ section) w in
      if blocked (fs w) link then (w0, Raise (OSError EEXIST))
      else
        let w1 := set_fs (<[link := Link path]> (fs w)) w0 in
        (w1, Ok (if exists_ (fs w1) link
                 then table ++ table_row (upper name) (strftime (localtime m))
                 else table)).
Proof.
  intros Hr Hs link general. unfold index_variable. rewrite Hr.
  unfold bind at 1. unfold lift, fspath. unfold bind at 1.
  unfold try_OSError, bind at 1. unfold os_stat. rewrite Hs. unfold ret at 1.
  fold general. destruct (general && contains "sas_base_dir" name); [done|].
  assert (He : exists_ (fs w) path = true) by (apply exists_stat; eauto).
  fold (link_path envdir name). fold link.
  destruct (general && in_list name ["cas_load"; "staging_data"]).
  - unfold bind, os_path_exists, gets. rewrite He, make_symlink_spec.
    destruct (blocked (fs w) link); [done|].
    unfold ret. by destruct (exists_ _ link).
  - unfold bind. rewrite print_say, make_symlink_spec. rewrite fs_say.
    destruct (blocked (fs w) link); [done|].
    unfold os_path_exists, gets, ret. by destruct (exists_ _ link).
Qed.

(** Passing over the [_root] variables of a section changes nothing. *)
Lemma for_each_drop_root envdir section values table w :
  for_each (index_variable localtime envdir section) table
    (List.filter (fun nv : string * value => negb (contains "_root" (fst nv))) values) w
  = for_each (index_variable localtime envdir section) table values w.
Proof.
  revert table w. induction values as [|[name path] values IH]; intros table w; [done|].
  cbn [List.filter fst]. destruct (contains "_root" name) eqn:Hr; cbn [negb].
  - rewrite IH. cbn [for_each]. unfold bind. by rewrite index_variable_root.
  - cbn [for_each]. unfold bind.
    destruct (index_variable localtime envdir section table (name, path) w) as [w' [t|e]];
      [apply IH|done].
Qed.

(** C1 (as the code has it): in every section, [general] or not, a
    variable whose name contains [_root] is skipped: building the links and
    the table of an environment does exactly what it does for the
    environment with those variables taken out, so no link is made or
    removed, no row is written and nothing is printed for them. *)
Theorem root_variable_skipped_in_every_section (env : environ) envdir w :
  create_index_table localtime env envdir w
  = create_index_table localtime (drop_root env) envdir w.
Proof.
  unfold create_index_table, bind.
  enough (H : forall table w,
             for_each (index_section localtime envdir) table (drop_root env) w
             = for_each (index_section localtime envdir) table env w) by by rewrite H.
  induction env as [|[section values] env IH]; intros table w'; [done|].
  cbn [drop_root List.map for_each fst snd]. fold (drop_root env). unfold bind.
  assert (Hs : index_section localtime envdir table
                 (section, List.filter (fun nv : string * value => negb (contains "_root" (fst nv))) values) w'
               = index_section localtime envdir table (section, values) w').
  { unfold index_section. destruct (String.eqb section "default"); [done|].
    apply for_each_drop_root. }
  rewrite Hs.
  destruct (index_section localtime envdir table (section, values) w') as [w'' [t|e]];
    [apply IH|done].
Qed.

(** C7: when the modification time of the target of a variable cannot be
    read ([os.stat] raises an [OSError]), no error leaves the loop: one
    line is printed, a symbolic link that stood under the upper-case name
    of the variable in the env directory is removed, the table gets no
    row, and the loop goes on with the next variable. *)
Theorem stat_failure_is_skipped envdir section table name path rest w e :
  contains "_root" name = false ->
  stat (fs w) path = Raise e ->
  let w' := set_fs (remove_link (fs w) (join envdir (upper name)))
              (say (path ++ " does not appear to exist, skipping...") w) in
  index_variable localtime envdir section table (name, VStr path) w = (w', Ok table)
  /\ for_each (index_variable localtime envdir section) table ((name, VStr path) :: rest) w
     = for_each (index_variable localtime envdir section) table rest w'
  /\ islink (fs w') (join envdir (upper name)) = false.
Proof.
  intros Hr Hs w'. pose proof (index_variable_unreachable envdir section table name path w e Hr Hs) as H.
  split; [exact H|split].
  - cbn [for_each]. unfold bind. by rewrite H.
  - subst w'. rewrite fs_set_fs. unfold islink. rewrite remove_link_lookup.
    unfold blocked. by destruct (fs w !! join envdir (upper name)) as [[| |]|].
Qed.

(** C10: a variable of the section [general] whose name contains
    [sas_base_dir] never gets a link or a row.  Unless [_root] passes it
    over first, its target is statted: if that works the variable is
    skipped with the line [Skipping ...], if not with the line of an
    unreachable target and the removal of a link of that name.  Whatever
    stands in the file system afterwards stood there before. *)
Theorem sas_base_dir_never_linked envdir table name path w :
  contains "sas_base_dir" name = true ->
  exists w',
    index_variable localtime envdir "general" table (name, VStr path) w = (w', Ok table)
    /\ fs w' ⊆ fs w
    /\ (contains "_root" name = false -> exists msg, out w' = (out w ++ [msg])%list)
    /\ (contains "_root" name = false -> exists_ (fs w) path = true ->
        w' = say ("Skipping " ++ name ++ " for general") w).
Proof.
  intros Hb. destruct (contains "_root" name) eqn:Hr.
  { exists w. rewrite index_variable_root by done. repeat split; done. }
  destruct (stat (fs w) path) as [m|e] eqn:Hs.
  - eexists. rewrite (index_variable_reachable _ _ _ _ _ _ m Hr Hs).
    cbn [String.eqb Ascii.eqb Bool.eqb andb]. rewrite Hb.
    split; [done|]. split; [done|]. split; [by eexists|done].
  - eexists. rewrite (index_variable_unreachable _ _ _ _ _ _ e Hr Hs).
    split; [done|]. split; [|split].
    + rewrite fs_set_fs. unfold remove_link.
      destruct (islink (fs w) _); [apply delete_subseteq|done].
    + intros _. by eexists.
    + intros _ He. apply exists_stat in He as [m' Hm]. congruence.
Qed.

(** C6: for [cas_load] and [staging_data] of the section [general] the
    link is made if and only if the target exists when the variable is
    reached (a file or directory standing under the name of the link makes
    [os.symlink] raise instead); for a variable outside [general] that
    [_root] does not pass over, the link is always attempted: made anew
    when the target exists, a stale one removed when it does not. *)
Theorem optional_and_ordinary_variables envdir table :
  (forall name path w w' r,
      name = "cas_load" \/ name = "staging_data" ->
      index_variable localtime envdir "general" table (name, VStr path) w = (w', r) ->
      let link := join envdir (upper name) in
      (exists_ (fs w) path = true -> blocked (fs w) link = false ->
       fs w' = <[link := Link path]> (fs w) /\ exists t, r = Ok t)
      /\ (exists_ (fs w) path = false ->
          fs w' = remove_link (fs w) link /\ r = Ok table)
      /\ ((exists t, r = Ok t) ->
          (fs w' !! link = Some (Link path) <-> exists_ (fs w) path = true)))
  /\
  (forall section name path w w' r,
      section <> "general" ->
      contains "_root" name = false ->
      index_variable localtime envdir section table (name, VStr path) w = (w', r) ->
      let link := join envdir (upper name) in
      (exists_ (fs w) path = true ->
       fs w' = fs (fst (make_symlink path link w))
       /\ (blocked (fs w) link = false -> fs w' !! link = Some (Link path)))
      /\ (exists_ (fs w) path = false ->
          fs w' = fs (fst (_remove_link link w)))).
Proof.
  split.
  - intros name path w w' r Hn Hi link.
    assert (Hr : contains "_root" name = false) by (by destruct Hn as [-> | ->]).
    assert (Hb : contains "sas_base_dir" name = false) by (by destruct Hn as [-> | ->]).
    assert (Hl : in_list name ["cas_load"; "staging_data"] = true)
      by (by destruct Hn as [-> | ->]).
    destruct (stat (fs w) path) as [m|e] eqn:Hs.
    + rewrite (index_variable_reachable _ _ _ _ _ _ m Hr Hs) in Hi.
      rewrite Hb, Hl in Hi. cbn [String.eqb Ascii.eqb Bool.eqb andb] in Hi.
      fold (link_path envdir name) in link. fold link in Hi.
      assert (He : exists_ (fs w) path = true) by (apply exists_stat; eauto).
      destruct (blocked (fs w) link) eqn:Hbl; injection Hi as <- <-.
      * split; [done|]. split; [congruence|]. by intros [t Ht].
      * split; [eauto|]. split; [congruence|]. intros _.
        rewrite fs_set_fs, lookup_insert_eq. done.
    + rewrite (index_variable_unreachable _ _ _ _ _ _ e Hr Hs) in Hi.
      injection Hi as <- <-.
      assert (He : exists_ (fs w) path = false) by (apply exists_stat_false; eauto).
      split; [congruence|]. split; [done|]. intros _.
      rewrite fs_set_fs, remove_link_lookup, He. unfold blocked.
      split; [|done]. by destruct (fs w !! link_path envdir name) as [[| |]|].
  - intros section name path w w' r Hg Hr Hi link.
    assert (Hg' : String.eqb section "general" = false) by (by apply String.eqb_neq).
    rewrite make_symlink_spec, remove_link_spec.
    destruct (stat (fs w) path) as [m|e] eqn:Hs.
    + rewrite (index_variable_reachable _ _ _ _ _ _ m Hr Hs) in Hi.
      rewrite Hg' in Hi. cbn [andb] in Hi.
      fold (link_path envdir name) in link. fold link in Hi.
      assert (He : exists_ (fs w) path = true) by (apply exists_stat; eauto).
      split; [|congruence]. intros _.
      destruct (blocked (fs w) link) eqn:Hbl; injection Hi as <- <-.
      * done.
      * split; [done|]. intros _. by rewrite fs_set_fs, lookup_insert_eq.
    + rewrite (index_variable_unreachable _ _ _ _ _ _ e Hr Hs) in Hi.
      injection Hi as <- <-.
      assert (He : exists_ (fs w) path = false) by (apply exists_stat_false; eauto).
      split; [congruence|]. done.
Qed.

(** C5 (as the code has it): when the archive root
    [environ['general']['sas_root']] does not exist, [create_env] returns
    without raising and leaves the file system as it was: no env
    directory, no link made or removed, no [index.html].  The line about
    the missing root is printed when [verbose] is set, not otherwise. *)
Theorem missing_root_is_no_op (env : environ) mirror verbose w d g root :
  getitem env "default" = Some d ->
  getitem env "general" = Some g ->
  getitem g "sas_root" = Some (VStr root) ->
  exists_ (fs w) root = false ->
  create_env localtime env mirror verbose w =
    (if verbose
     then say (root ++ " doesn't exist, skipping env link creation.") w
     else w, Ok tt).
Proof.
  intros Hd Hg Hroot He. unfold create_env, get. rewrite Hd, Hg.
  unfold bind at 1. unfold ret at 1. unfold bind at 1. unfold ret at 1.
  rewrite Hroot. unfold bind at 1. unfold ret at 1.
  unfold bind at 1. unfold lift, fspath. unfold bind at 1.
  unfold os_path_exists, gets. rewrite He. cbn [negb].
  by destruct verbose.
Qed.

(** *** The rows of the table *)

Lemma index_variable_rows envdir section t item w :
  index_variable localtime envdir section t item w =
    (after_variable localtime envdir section item w,
     match snd (index_variable localtime envdir section "" item w) with
     | Ok _ => Ok (t ++ join_rows (row_of localtime envdir section item w))
     | Raise e => Raise e
     end).
Proof.
  destruct item as [name path]. unfold row_of, reaches_link, after_variable.
  cbn [fst snd].
  destruct (contains "_root" name) eqn:Hr.
  { rewrite !index_variable_root by done. cbn [fst snd join_rows fold_right].
    by rewrite append_nil_r. }
  destruct path as [path|b].
  2:{ unfold index_variable. rewrite Hr. done. }
  destruct (stat (fs w) path) as [m|e] eqn:Hs.
  - rewrite !(index_variable_reachable _ _ _ _ _ _ m Hr Hs).
    destruct (String.eqb section "general" && contains "sas_base_dir" name).
    { cbn [fst snd join_rows fold_right]. by rewrite append_nil_r. }
    cbv zeta.
    destruct (blocked (fs w) (link_path envdir name)); [done|].
    cbn [fst snd].
    destruct (exists_ _ (link_path envdir name)); cbn [join_rows fold_right].
    + rewrite append_nil_r. reflexivity.
    + by rewrite append_nil_r.
  - rewrite !(index_variable_unreachable _ _ _ _ _ _ e Hr Hs).
    cbn [fst snd join_rows fold_right]. by rewrite append_nil_r.
Qed.

Lemma for_each_variable_rows envdir section items t w :
  for_each (index_variable localtime envdir section) t items w =
    (fst (for_each (index_variable localtime envdir section) "" items w),
     match snd (for_each (index_variable localtime envdir section) "" items w) with
     | Ok _ => Ok (t ++ join_rows (section_rows localtime envdir section items w))
     | Raise e => Raise e
     end).
Proof.
  revert t w. induction items as [|item items IH]; intros t w.
  { cbn. by rewrite append_nil_r. }
  cbn [for_each section_rows]. unfold bind.
  rewrite (index_variable_rows _ _ t). unfold after_variable.
  destruct (index_variable localtime envdir section "" item w) as [w1 [t0|e]];
    cbn [fst snd]; [|done].
  rewrite (IH (t ++ _)), (IH t0).
  destruct (snd (for_each _ "" items _)); [|done].
  cbn [fst snd]. by rewrite join_rows_app, append_assoc.
Qed.

Lemma index_section_rows envdir t item w :
  index_section localtime envdir t item w =
    (after_section localtime envdir item w,
     match snd (index_section localtime envdir "" item w) with
     | Ok _ => Ok (t ++ join_rows (if String.eqb (fst item) "default" then []
                                   else section_rows localtime envdir (fst item) (snd item) w))
     | Raise e => Raise e
     end).
Proof.
  destruct item as [section values]. unfold after_section, index_section. cbn [fst snd].
  destruct (String.eqb section "default").
  { cbn. by rewrite append_nil_r. }
  rewrite (for_each_variable_rows _ _ _ t).
  by destruct (snd (for_each _ "" values w)).
Qed.

Lemma for_each_section_rows envdir (env : environ) t w :
  for_each (index_section localtime envdir) t env w =
    (fst (for_each (index_section localtime envdir) "" env w),
     match snd (for_each (index_section localtime envdir) "" env w) with
     | Ok _ => Ok (t ++ join_rows (table_rows localtime envdir env w))
     | Raise e => Raise e
     end).
Proof.
  revert t w. induction env as [|item env IH]; intros t w.
  { cbn. by rewrite append_nil_r. }
  cbn [for_each table_rows]. unfold bind.
  rewrite (index_section_rows _ t). unfold after_section.
  destruct (index_section localtime envdir "" item w) as [w1 [t0|e]];
    cbn [fst snd]; [|done].
  rewrite (IH (t ++ _)), (IH t0).
  destruct (snd (for_each _ "" env _)); [|done].
  cbn [fst snd]. by rewrite join_rows_app, append_assoc.
Qed.


End SetupTreeFacts.

(** ** Writing files *)

Lemma resolve_after_write n σ p q c m :
  (exists c0 m0, resolve n σ p = Found q (File c0 m0)) \/ resolve n σ p = Missing q ->
  resolve n (<[q := File c m]> σ) p = Found q (File c m).
Proof.
  revert p. induction n as [|n IH]; intros p H; cbn [resolve] in *.
  - destruct (decide (p = q)) as [->|Hne]; [by rewrite lookup_insert_eq|].
    rewrite lookup_insert_ne by done.
    destruct (σ !! p) as [[| |]|]; destruct H as [(? & ? & H)|H]; congruence.
  - destruct (decide (p = q)) as [->|Hne]; [by rewrite lookup_insert_eq|].
    rewrite lookup_insert_ne by done.
    destruct (σ !! p) as [[| |t]|]; try (destruct H as [(? & ? & H)|H]; congruence).
    by apply IH.
Qed.

Lemma write_target_resolve σ p q :
  write_target σ p = Ok q ->
  (exists c0 m0, resolve MAXSYMLINKS σ p = Found q (File c0 m0))
  \/ resolve MAXSYMLINKS σ p = Missing q.
Proof.
  unfold write_target. destruct (resolve MAXSYMLINKS σ p) as [q' [| |]| |];
    intros [= ->]; eauto.
Qed.

(** Reading back what was written. *)
Lemma read_put p q c w :
  write_target (fs w) p = Ok q -> read (fs (put q c w)) p = Some c.
Proof.
  intros H%write_target_resolve. unfold read, put. rewrite fs_set_fs.
  by rewrite (resolve_after_write _ _ _ _ c (clock w) H).
Qed.

Lemma open_w_put p q w :
  write_target (fs w) p = Ok q -> open_w p w = (put q "" w, Ok q).
Proof. unfold open_w. by intros ->. Qed.

Lemma open_w_raise p e w :
  write_target (fs w) p = Raise e -> open_w p w = (w, Raise e).
Proof. unfold open_w. by intros ->. Qed.

Lemma put_put q c c' w : put q c' (put q c w) = put q c' w.
Proof. unfold put. cbn. by rewrite insert_insert_eq. Qed.

Lemma f_write_put q c s w : f_write q s (put q c w) = (put q (c ++ s) w, Ok tt).
Proof.
  unfold f_write. rewrite <- (put_put q c (c ++ s) w).
  unfold put at 1. rewrite fs_set_fs, lookup_insert_eq. done.
Qed.

Lemma write_variables_put term q c items w :
  for_each (write_variable term q) tt items (put q c w) =
    (put q (c ++ join_rows (List.map (fun nv : string * value =>
                                        cmd term (upper (fst nv)) (str (snd nv))) items)) w,
     Ok tt).
Proof.
  revert c. induction items as [|[name path] items IH]; intros c.
  { cbn. by rewrite append_nil_r. }
  cbn [for_each List.map join_rows fold_right fst snd]. unfold bind, write_variable.
  rewrite f_write_put, IH. by rewrite append_assoc.
Qed.

Lemma write_sections_put term q c (env : environ) w :
  for_each (write_section term q) tt env (put q c w) =
    (put q (c ++ body term env) w, Ok tt).
Proof.
  unfold body. revert c. induction env as [|[section values] env IH]; intros c.
  { cbn. by rewrite append_nil_r. }
  cbn [for_each List.filter fst]. unfold bind. unfold write_section at 1.
  destruct (String.eqb section "default"); cbn [negb].
  - unfold ret. apply IH.
  - unfold bind. rewrite f_write_put, write_variables_put, IH.
    cbn [flat_map fst snd]. rewrite join_rows_app.
    cbn [join_rows fold_right]. fold (join_rows (List.map (fun nv : string * value =>
      cmd term (upper (fst nv)) (str (snd nv))) values)).
    unfold separator. by rewrite !append_assoc.
Qed.

Lemma shell_body_body env : shell_body env = body "bash" env.
Proof. reflexivity. Qed.

Lemma exts_known term ext :
  getitem exts term = Some ext -> in_list term ["bash"; "tsch"; "modules"] = true.
Proof.
  unfold exts, in_list. cbn [getitem existsb].
  rewrite (String.eqb_sym "bash"), (String.eqb_sym "tsch"), (String.eqb_sym "modules").
  destruct (String.eqb term "bash"); [done|].
  destruct (String.eqb term "tsch"); [done|].
  destruct (String.eqb term "modules"); done.
Qed.

(** [write_file], step by step. *)
Lemma write_file_spec (env : environ) term out_dir tree_dir w d nm ext :
  getitem env "default" = Some d ->
  getitem d "name" = Some (VStr nm) ->
  getitem exts term = Some ext ->
  write_file env term out_dir tree_dir w =
    match write_target (fs w) (join out_dir (nm ++ ext)) with
    | Raise e => (w, Raise e)
    | Ok q =>
        let w1 := put q (header_text term tree_dir nm ++ nl ++ body term env) w in
        if String.eqb term "modules" then
          match getitem d "current" with
          | None => (w1, Raise (KeyError "current"))
          | Some c =>
              if truthy c then
                match write_target (fs w1) (join out_dir ".version") with
                | Ok qv => (put qv (write_version (VStr nm)) w1, Ok tt)
                | Raise e => (w1, Raise e)
                end
              else (w1, Ok tt)
          end
        else (w1, Ok tt)
    end.
Proof.
  intros Hd Hn He. unfold write_file, get. rewrite Hd.
  unfold bind at 1. unfold ret at 1. rewrite Hn.
  unfold bind at 1. unfold ret at 1.
  unfold bind at 1. unfold write_header. rewrite (exts_known _ _ He). cbn [negb].
  unfold ret at 1. rewrite He.
  unfold bind at 1. unfold ret at 1.
  unfold bind at 1. unfold lift, fspath.
  unfold bind at 1.
  destruct (write_target (fs w) (join out_dir (nm ++ ext))) as [q|e] eqn:Hq.
  2:{ by rewrite (open_w_raise _ _ _ Hq). }
  rewrite (open_w_put _ _ _ Hq).
  unfold bind at 1. rewrite f_write_put.
  unfold bind at 1. rewrite write_sections_put.
  cbn [str]. rewrite !append_assoc.
  change ("" ++ ?x) with x. fold (header_text term tree_dir nm).
  cbv zeta.
  destruct (String.eqb term "modules"); [|done].
  destruct (getitem d "current") as [c|]; [|done].
  unfold bind at 1. unfold ret at 1.
  destruct (truthy c); [|done].
  set (w1 := put q _ w).
  destruct (write_target (fs w1) (join out_dir ".version")) as [qv|e] eqn:Hv.
  - unfold bind. rewrite (open_w_put _ _ _ Hv), f_write_put. done.
  - unfold bind. by rewrite (open_w_raise _ _ _ Hv).
Qed.

Lemma last_char_app (a b : string) : b <> "" -> last_char (a ++ b) = last_char b.
Proof.
  intros Hb. induction a as [|c a IH]; [done|].
  rewrite append_cons. cbn [last_char]. rewrite IH.
  destruct (a ++ b) eqn:E; [|done].
  destruct a; [|done]. by destruct b.
Qed.

Lemma last_char_join (a b : string) : b <> "" -> last_char (join a b) = last_char b.
Proof.
  intros Hb. unfold join. destruct (startswith_slash b); [done|].
  destruct (String.eqb a "" || endswith a "/").
  - by apply last_char_app.
  - rewrite last_char_app by (by destruct b). by apply (last_char_app "/").
Qed.

Lemma last_char_ext term ext name :
  getitem exts term = Some ext ->
  name ++ ext <> "" /\ last_char (name ++ ext) <> Some "n"%char.
Proof.
  unfold exts. cbn [getitem].
  destruct (String.eqb "bash" term); [intros [= <-]|
  destruct (String.eqb "tsch" term); [intros [= <-]|
  destruct (String.eqb "modules" term); [intros [= <-]|done]]];
    (split; [by destruct name|by rewrite last_char_app]).
Qed.

(** The environment file and the version file have different names. *)
Lemma filename_not_version term ext out_dir name :
  getitem exts term = Some ext ->
  join out_dir (name ++ ext) <> join out_dir ".version".
Proof.
  intros He Heq. destruct (last_char_ext term ext name He) as [Hne Hl].
  apply Hl. rewrite <- (last_char_join out_dir) by done. rewrite Heq.
  by rewrite last_char_join.
Qed.

Lemma write_target_not_link σ p q :
  islink σ p = false -> write_target σ p = Ok q -> q = p.
Proof.
  unfold islink, write_target, MAXSYMLINKS. cbn [resolve].
  destruct (σ !! p) as [[| |]|]; intros; simplify_eq; done.
Qed.

Lemma put_lookup_ne q c w k : k <> q -> fs (put q c w) !! k = fs w !! k.
Proof. intros. unfold put. by rewrite fs_set_fs, lookup_insert_ne. Qed.

(** C3: when [write_file] has run to its end, the file [.version] of the
    output directory has been written if and only if the dialect is
    [modules] and [environ['default']['current']] is true, and it then holds
    exactly the two lines [#%Module1.0] and [set ModulesVersion <name>];
    for another dialect, or when [current] is false, only the entry the
    environment file is written to has changed, so [.version] is as it was
    (the environment file not being a symbolic link onto it). *)
Theorem version_file_iff_modules_and_current (env : environ) term out_dir tree_dir
    w w' d nm c ext :
  getitem env "default" = Some d ->
  getitem d "name" = Some (VStr nm) ->
  getitem d "current" = Some c ->
  getitem exts term = Some ext ->
  write_file env term out_dir tree_dir w = (w', Ok tt) ->
  let filename := join out_dir (nm ++ ext) in
  let version_name := join out_dir ".version" in
  (term = "modules" /\ truthy c = true ->
   read (fs w') version_name = Some ("#%Module1.0" ++ nl ++ "set ModulesVersion " ++ nm))
  /\ (~ (term = "modules" /\ truthy c = true) ->
      (forall k, write_target (fs w) filename <> Ok k -> fs w' !! k = fs w !! k)
      /\ (islink (fs w) filename = false -> fs w' !! version_name = fs w !! version_name)).
Proof.
  intros Hd Hn Hc He Hw filename version_name.
  rewrite (write_file_spec env term out_dir tree_dir w d nm ext Hd Hn He) in Hw.
  fold filename in Hw. rewrite Hc in Hw.
  destruct (write_target (fs w) filename) as [q|e] eqn:Hq; [|done].
  cbv zeta in Hw.
  assert (Hrest : forall w1, (w1, Ok tt) = (w', Ok tt) ->
            put q (header_text term tree_dir nm ++ nl ++ body term env) w = w1 ->
            (forall k, Ok q <> Ok k -> fs w' !! k = fs w !! k)
            /\ (islink (fs w) filename = false -> fs w' !! version_name = fs w !! version_name)).
  { intros w1 [= <-] <-. assert (Hk : forall k, Ok q <> Ok k ->
        fs (put q (header_text term tree_dir nm ++ nl ++ body term env) w) !! k = fs w !! k).
    { intros k Hk. apply put_lookup_ne. congruence. }
    split; [exact Hk|]. intros Hl. apply Hk.
    rewrite (write_target_not_link _ _ _ Hl Hq). intros [= Heq].
    by apply (filename_not_version term ext out_dir nm He). }
  destruct (String.eqb term "modules") eqn:Hm.
  - apply String.eqb_eq in Hm. destruct (truthy c) eqn:Ht.
    + split; [|intros []; done]. intros _.
      fold version_name in Hw.
      destruct (write_target _ version_name) as [qv|e] eqn:Hv; [|done].
      injection Hw as <-. by apply read_put.
    + split; [intros [_ ?]; done|]. intros _. by apply (Hrest _ Hw).
  - apply String.eqb_neq in Hm. split; [intros [? _]; done|]. intros _.
    by apply (Hrest _ Hw).
Qed.

Lemma join_rows_in x rows :
  In x rows -> exists pre post, join_rows rows = pre ++ x ++ post.
Proof.
  intros (l1 & l2 & ->)%in_split. exists (join_rows l1), (join_rows l2).
  by rewrite join_rows_app.
Qed.


(** ** Paths and the listing of a directory *)

Lemma length_append (a b : string) :
  String.length (a ++ b) = (String.length a + String.length b)%nat.
Proof. induction a as [|c a IH]; [done|]. rewrite append_cons. cbn [String.length]. by rewrite IH. Qed.

Lemma substring_all (s : string) : substring 0 (String.length s) s = s.
Proof. induction s as [|c s IH]; [done|]. cbn [String.length substring]. by rewrite IH. Qed.

Lemma take_app (a b : string) : take (Z.of_nat (String.length a)) (a ++ b) = a.
Proof.
  unfold take. rewrite Nat2Z.id. induction a as [|c a IH].
  - by destruct b.
  - rewrite append_cons. cbn [String.length substring]. by rewrite IH.
Qed.

Lemma drop_app (a b : string) : drop (Z.of_nat (String.length a)) (a ++ b) = b.
Proof.
  unfold drop. rewrite Nat2Z.id, length_append.
  replace (String.length a + String.length b - String.length a)%nat with (String.length b) by lia.
  induction a as [|c a IH].
  - apply substring_all.
  - rewrite append_cons. cbn [String.length substring]. apply IH.
Qed.

Lemma rfind_lower c s : -1 <= rfind c s.
Proof.
  induction s as [|a s IH]; cbn [rfind]; [lia|].
  destruct (0 <=? rfind c s) eqn:E; [lia|]. destruct (Ascii.eqb a c); lia.
Qed.

Lemma rfind_app c (a b : string) :
  rfind c (a ++ b) =
    if 0 <=? rfind c b then Z.of_nat (String.length a) + rfind c b else rfind c a.
Proof.
  induction a as [|x a IH].
  - change ("" ++ b) with b. cbn [String.length rfind].
    pose proof (rfind_lower c b). destruct (0 <=? rfind c b) eqn:E; lia.
  - rewrite append_cons. cbn [rfind String.length]. rewrite IH.
    destruct (0 <=? rfind c b) eqn:E.
    + apply Z.leb_le in E.
      replace (0 <=? Z.of_nat (String.length a) + rfind c b) with true
        by (symmetry; apply Z.leb_le; lia). lia.
    + done.
Qed.

Lemma prefix_slash (s : string) : String.prefix "/" s = startswith_slash s.
Proof.
  destruct s as [|a s]; [done|]. cbn [String.prefix startswith_slash].
  destruct (ascii_dec "/" a) as [<-|Hne]; [by destruct s|].
  symmetry. apply Ascii.eqb_neq. congruence.
Qed.

Lemma rfind_no_slash (s : string) : contains "/" s = false -> rfind "/"%char s = -1.
Proof.
  induction s as [|a s IH]; [done|]. cbn [contains]. rewrite prefix_slash.
  intros [Hs Hc]%orb_false_iff. cbn [rfind]. rewrite (IH Hc). cbn.
  cbn [startswith_slash] in Hs. by rewrite Hs.
Qed.

Lemma endswith_app (s suf : string) :
  endswith s suf = true <-> exists base, s = base ++ suf.
Proof.
  split.
  - induction s as [|c s IH]; cbn [endswith].
    + rewrite orb_false_r. intros ->%String.eqb_eq. by exists "".
    + intros [->%String.eqb_eq|H]%orb_true_iff; [by exists ""|].
      destruct (IH H) as [base ->]. by exists (String c base).
  - intros [base ->]. induction base as [|c base IH].
    + change ("" ++ suf) with suf. destruct suf; cbn [endswith]; by rewrite String.eqb_refl.
    + rewrite append_cons. cbn [endswith]. by rewrite IH, orb_true_r.
Qed.

Lemma strip_prefix_app (pre s : string) : strip_prefix pre (pre ++ s) = Some s.
Proof.
  induction pre as [|c pre IH]; [by destruct s|].
  rewrite append_cons. cbn [strip_prefix]. by rewrite Ascii.eqb_refl.
Qed.

Lemma strip_prefix_Some (pre k s : string) : strip_prefix pre k = Some s -> k = pre ++ s.
Proof.
  revert k. induction pre as [|c pre IH]; intros k.
  - destruct k; intros [= <-]; reflexivity.
  - destruct k as [|b k]; [done|]. cbn [strip_prefix].
    destruct (Ascii.eqb c b) eqn:E; [|done]. apply Ascii.eqb_eq in E as ->.
    intros H%IH. by rewrite append_cons, H.
Qed.

Lemma no_slash_start (s : string) : contains "/" s = false -> startswith_slash s = false.
Proof.
  destruct s as [|a s]; [done|]. cbn [contains]. rewrite prefix_slash.
  by intros [? _]%orb_false_iff.
Qed.

(** [join d name] is the directory prefix followed by the name. *)
Lemma join_prefix (d name : string) :
  startswith_slash name = false -> join d name = join d "" ++ name.
Proof.
  intros H. unfold join. rewrite H. cbn [startswith_slash].
  destruct (String.eqb d "" || endswith d "/").
  - by rewrite append_nil_r.
  - by rewrite !append_assoc.
Qed.

Lemma endswith_slash_rfind (s : string) :
  endswith s "/" = true -> rfind "/"%char s = Z.of_nat (String.length s) - 1.
Proof.
  intros [base ->]%endswith_app. rewrite rfind_app, length_append.
  cbn [rfind String.length]. cbn. lia.
Qed.

Lemma dir_prefix_cases (d : string) :
  join d "" = "" \/ endswith (join d "") "/" = true.
Proof.
  unfold join. cbn [startswith_slash].
  destruct (String.eqb d "") eqn:Ed.
  - apply String.eqb_eq in Ed as ->. by left.
  - cbn [orb]. destruct (endswith d "/") eqn:Es.
    + right. by rewrite append_nil_r.
    + right. apply endswith_app. by exists d.
Qed.

Lemma basename_join (d name : string) :
  contains "/" name = false -> basename (join d name) = name.
Proof.
  intros Hn. rewrite (join_prefix d name) by by apply no_slash_start.
  unfold basename. rewrite rfind_app, (rfind_no_slash _ Hn). cbn [Z.leb Z.compare].
  destruct (dir_prefix_cases d) as [->|He].
  - cbn [rfind]. change ("" ++ name) with name. unfold drop. cbn.
    rewrite Nat.sub_0_r. apply substring_all.
  - rewrite (endswith_slash_rfind _ He).
    replace (Z.of_nat (String.length (join d "")) - 1 + 1) with
      (Z.of_nat (String.length (join d ""))) by lia.
    apply drop_app.
Qed.

Lemma entry_name_join (d name : string) :
  name <> "" -> contains "/" name = false -> entry_name d (join d name) = Some name.
Proof.
  intros Hne Hn. unfold entry_name.
  rewrite (join_prefix d name) by by apply no_slash_start.
  rewrite strip_prefix_app, Hn. apply String.eqb_neq in Hne. by rewrite Hne.
Qed.

Lemma entry_name_Some (d k name : string) :
  entry_name d k = Some name ->
  k = join d name /\ name <> "" /\ contains "/" name = false.
Proof.
  unfold entry_name. destruct (strip_prefix (join d "") k) as [n|] eqn:E; [|done].
  destruct (String.eqb n "") eqn:En; [done|]. cbn [orb].
  destruct (contains "/" n) eqn:Ec; [done|]. intros [= <-].
  apply strip_prefix_Some in E. apply String.eqb_neq in En.
  split; [|done]. by rewrite (join_prefix d n) by by apply no_slash_start.
Qed.

Lemma all_dots_false (s : string) : s <> "" -> String.prefix "." s = false -> all_dots s = false.
Proof.
  destruct s as [|a s]; [done|]. intros _. cbn [String.prefix all_dots].
  destruct (ascii_dec "." a) as [<-|Hne]; [by destruct s|]. intros _.
  assert (Ascii.eqb a "." = false) as -> by (apply Ascii.eqb_neq; congruence). done.
Qed.

(** The root of a module file name is the name without [.module]. *)
Lemma splitext_module (base : string) :
  base <> "" -> String.prefix "." base = false -> contains "/" base = false ->
  splitext (base ++ ".module") = (base, ".module").
Proof.
  intros Hne Hdot Hs. unfold splitext.
  assert (Hsl : rfind "/"%char (base ++ ".module") = -1).
  { rewrite rfind_app. cbn [rfind]. cbn. by apply rfind_no_slash. }
  assert (Hd : rfind "."%char (base ++ ".module") = Z.of_nat (String.length base)).
  { rewrite rfind_app. cbn [rfind]. cbn. lia. }
  rewrite Hsl, Hd, take_app, drop_app.
  replace (-1 <? Z.of_nat (String.length base)) with true by (symmetry; apply Z.ltb_lt; lia).
  change (drop (-1 + 1) base) with (drop 0 base).
  assert (drop 0 base = base) as ->.
  { unfold drop. cbn. rewrite Nat.sub_0_r. apply substring_all. }
  by rewrite (all_dots_false base Hne Hdot).
Qed.

Lemma prefix_app_false (c : ascii) (a b : string) :
  a <> "" -> String.prefix (String c "") (a ++ b) = String.prefix (String c "") a.
Proof.
  destruct a as [|x a]; [done|]. intros _. rewrite append_cons. cbn [String.prefix].
  destruct (ascii_dec c x); [|done]. by destruct (a ++ b), a.
Qed.

Lemma contains_slash_app (a b : string) :
  contains "/" (a ++ b) = contains "/" a || contains "/" b.
Proof.
  induction a as [|x a IH]; [done|]. rewrite append_cons. cbn [contains].
  rewrite !prefix_slash. cbn [startswith_slash]. rewrite IH. by rewrite orb_assoc.
Qed.

(** What [glob] keeps: the names [<base>.module] with a base that is not
    empty and does not start with a dot. *)
Lemma module_name_base (name : string) :
  is_module_name name = true -> contains "/" name = false ->
  exists base, name = base ++ ".module" /\ base <> "" /\ String.prefix "." base = false
               /\ contains "/" base = false.
Proof.
  unfold is_module_name. intros [He Hh]%andb_true_iff Hs.
  apply endswith_app in He as [base ->]. exists base.
  apply negb_true_iff in Hh. rewrite contains_slash_app in Hs.
  apply orb_false_iff in Hs as [Hs _].
  assert (base <> "") by (intros ->; done).
  split; [done|]. split; [done|]. split; [|done].
  by rewrite <- (prefix_app_false "." base ".module").
Qed.

Lemma resolve_None n (σ : gmap string node) p : σ !! p = None -> resolve n σ p = Missing p.
Proof. intros H. destruct n; cbn [resolve]; by rewrite H. Qed.

Lemma resolve_File n (σ : gmap string node) p c m :
  σ !! p = Some (File c m) -> resolve n σ p = Found p (File c m).
Proof. intros H. destruct n; cbn [resolve]; by rewrite H. Qed.

Lemma resolve_plain n (σ : gmap string node) p :
  is_plain (σ !! p) = true ->
  resolve n σ p = Missing p \/ exists c m, resolve n σ p = Found p (File c m).
Proof.
  destruct (σ !! p) as [[c m| |]|] eqn:E; try done; intros _.
  - right. exists c, m. by apply resolve_File.
  - left. by apply resolve_None.
Qed.

(** Writing over plain entries does not move a directory. *)
Lemma resolve_dir_stable n (σ σ' : gmap string node) p q m wr :
  (forall k, σ' !! k <> σ !! k -> is_plain (σ !! k) = true) ->
  resolve n σ p = Found q (Dir m wr) ->
  resolve n σ' p = Found q (Dir m wr).
Proof.
  intros Hk. revert p. induction n as [|n IH]; intros p; cbn [resolve].
  - destruct (σ !! p) as [[| |]|] eqn:E; try done;
      destruct (decide (σ' !! p = σ !! p)) as [->|Hne];
      rewrite ?E; try done; apply Hk in Hne; by rewrite E in Hne.
  - destruct (σ !! p) as [[| |t]|] eqn:E; try done;
      (destruct (decide (σ' !! p = σ !! p)) as [->|Hne];
       [rewrite ?E; try done; apply IH| apply Hk in Hne; by rewrite E in Hne]).
Qed.

Lemma copy_module_step tree_mod mfile w w' :
  is_plain (fs w !! dest tree_mod mfile) = true ->
  copy_module tree_mod tt mfile w = (w', Ok tt) ->
  exists q c m,
    resolve MAXSYMLINKS (fs w) mfile = Found q (File c m)
    /\ w' = set_fs (<[dest tree_mod mfile := File c m]> (fs w)) w.
Proof.
  intros Hp. unfold copy_module, shutil_copy2. fold (dest tree_mod mfile).
  assert (Hd : isdir (fs w) (dest tree_mod mfile) = false).
  { unfold isdir. by destruct (resolve_plain MAXSYMLINKS _ _ Hp) as [->|(? & ? & ->)]. }
  rewrite Hd.
  destruct (resolve MAXSYMLINKS (fs w) mfile) as [q [c m|m wr|t]| |] eqn:Hs.
  - destruct (resolve_plain MAXSYMLINKS _ _ Hp) as [->|(? & ? & ->)].
    + intros [= <-]. eauto.
    + destruct (String.eqb q (dest tree_mod mfile)); [done|]. intros [= <-]. eauto.
  - destruct (resolve MAXSYMLINKS (fs w) (dest tree_mod mfile)) as [? ?| |]; try done.
    by destruct (String.eqb q _).
  - destruct (resolve MAXSYMLINKS (fs w) (dest tree_mod mfile)) as [? ?| |]; try done.
    by destruct (String.eqb q _).
  - done.
  - done.
Qed.

Lemma copy_loop tree_mod w (L : list string) : forall σ w',
  List.NoDup (List.map (dest tree_mod) L) ->
  (forall mf, In mf L -> is_plain (σ !! dest tree_mod mf) = true) ->
  for_each (copy_module tree_mod) tt L (set_fs σ w) = (w', Ok tt) ->
  (forall mf c m,
      In mf L -> (forall mf', In mf' L -> mf <> dest tree_mod mf') ->
      σ !! mf = Some (File c m) -> fs w' !! dest tree_mod mf = Some (File c m))
  /\ (forall k, ~ In k (List.map (dest tree_mod) L) -> fs w' !! k = σ !! k).
Proof.
  induction L as [|a L IH]; intros σ w' Hnd Hpl Hrun.
  { cbn in Hrun. injection Hrun as <-. split; [by intros ? ? ? []|done]. }
  cbn [for_each] in Hrun. unfold bind in Hrun.
  destruct (copy_module tree_mod tt a (set_fs σ w)) as [w1 [[]|e]] eqn:Ha; [|done].
  apply copy_module_step in Ha as (q & c & m & Hres & ->);
    [|rewrite fs_set_fs; apply Hpl; by left].
  rewrite fs_set_fs, set_fs_set_fs in *.
  cbn [List.map] in Hnd. apply List.NoDup_cons_iff in Hnd as [Hna Hnd].
  assert (Hne : forall mf, In mf L -> dest tree_mod mf <> dest tree_mod a).
  { intros mf Hin Heq. apply Hna. rewrite <- Heq. by apply in_map. }
  destruct (IH (<[dest tree_mod a := File c m]> σ) w' Hnd) as [IH1 IH2]; [|done|].
  { intros mf Hin. rewrite lookup_insert_ne by (intros ?; by eapply Hne).
    apply Hpl. by right. }
  split.
  - intros mf c' m' [<-|Hin] Hnot Hmf.
    + rewrite IH2 by done. rewrite lookup_insert_eq.
      rewrite (resolve_File _ _ _ _ _ Hmf) in Hres. by injection Hres as _ <- <-.
    + apply IH1; [done|intros; apply Hnot; by right|].
      rewrite lookup_insert_ne; [done|]. intros Heq. by apply (Hnot a (or_introl eq_refl)).
  - intros k Hk. cbn [List.map] in Hk. rewrite IH2 by (intros ?; apply Hk; by right).
    apply lookup_insert_ne. intros Heq. apply Hk. by left.
Qed.

Lemma listdir_In (σ : gmap string node) d name :
  In name (listdir σ d) <->
  name <> "" /\ contains "/" name = false /\ is_Some (σ !! join d name).
Proof.
  unfold listdir. rewrite <- list_elem_of_In, list_elem_of_omap. split.
  - intros ([k nd] & Hin & He). cbn [fst] in He.
    apply entry_name_Some in He as (-> & Hne & Hs).
    apply elem_of_map_to_list in Hin. eauto.
  - intros (Hne & Hs & [nd Hnd]). exists (join d name, nd). split.
    + by apply elem_of_map_to_list.
    + by apply entry_name_join.
Qed.

Lemma listdir_NoDup (σ : gmap string node) d : List.NoDup (listdir σ d).
Proof.
  unfold listdir. apply NoDup_ListNoDup.
  pose proof (NoDup_fst_map_to_list σ) as Hnd.
  induction (map_to_list σ) as [|[k nd] l IH]; [constructor|].
  cbn [omap list_omap fst]. rewrite fmap_cons in Hnd. apply NoDup_cons in Hnd as [Hk Hnd].
  destruct (entry_name d k) as [name|] eqn:E; [|by apply IH].
  apply NoDup_cons. split; [|by apply IH].
  intros ([k' nd'] & Hin & He)%list_elem_of_omap. cbn [fst] in He.
  apply entry_name_Some in E as (-> & _). apply entry_name_Some in He as (-> & _).
  apply Hk. apply list_elem_of_fmap. by exists (join d name, nd').
Qed.

Lemma dest_module tree_mod d base :
  base <> "" -> String.prefix "." base = false -> contains "/" base = false ->
  dest tree_mod (join d (base ++ ".module")) = join tree_mod base.
Proof.
  intros Hne Hdot Hs. unfold dest.
  rewrite basename_join by (by rewrite contains_slash_app, Hs).
  by rewrite splitext_module.
Qed.

Lemma join_inj (a x y : string) :
  startswith_slash x = false -> startswith_slash y = false ->
  join a x = join a y -> x = y.
Proof.
  intros Hx Hy. rewrite (join_prefix a x Hx), (join_prefix a y Hy).
  apply String.app_inj.
Qed.

Lemma glob_modules_In (σ : gmap string node) filespath mfile :
  In mfile (glob_modules σ filespath) <->
  exists base, mfile = join (fst (split (join filespath "*.module"))) (base ++ ".module")
               /\ base <> "" /\ String.prefix "." base = false /\ contains "/" base = false
               /\ is_Some (σ !! mfile).
Proof.
  unfold glob_modules. set (d := fst (split _)). rewrite in_map_iff. split.
  - intros (name & <- & [Hin Hm]%filter_In). apply listdir_In in Hin as (_ & Hs & Hsome).
    destruct (module_name_base name Hm Hs) as (base & -> & ? & ? & ?). by exists base.
  - intros (base & -> & Hne & Hdot & Hs & Hsome). exists (base ++ ".module").
    split; [done|]. apply filter_In. split.
    + apply listdir_In. split; [by destruct base|]. split; [|done].
      by rewrite contains_slash_app, Hs.
    + unfold is_module_name. apply andb_true_iff. split.
      * apply endswith_app. by exists base.
      * apply negb_true_iff. by rewrite prefix_app_false.
Qed.

Lemma glob_dest_NoDup (σ : gmap string node) filespath tree_mod :
  List.NoDup (List.map (dest tree_mod) (glob_modules σ filespath)).
Proof.
  unfold glob_modules. set (d := fst (split _)). rewrite map_map.
  apply NoDup_map_NoDup_ForallPairs.
  - intros n1 n2 [Hi1 Hm1]%filter_In [Hi2 Hm2]%filter_In Heq.
    apply listdir_In in Hi1 as (_ & Hs1 & _). apply listdir_In in Hi2 as (_ & Hs2 & _).
    destruct (module_name_base n1 Hm1 Hs1) as (b1 & -> & ? & ? & ?).
    destruct (module_name_base n2 Hm2 Hs2) as (b2 & -> & ? & ? & ?).
    rewrite !dest_module in Heq by done.
    apply join_inj in Heq; [by subst|by apply no_slash_start..].
  - apply List.NoDup_filter, listdir_NoDup.
Qed.

Lemma find_modules_path_fs modules_path verbose w w0 r :
  find_modules_path modules_path verbose w = (w0, r) -> fs w0 = fs w.
Proof.
  assert (Hin : forall p w w0 (r : result string), input p w = (w0, r) -> fs w0 = fs w).
  { intros p w1 w2 r'. unfold input. destruct (stdin w1); by intros [= <- _]. }
  assert (Henv : forall w w0 (r : result string),
    (modulepath <- getenv "MODULEPATH";;
      match modulepath with
      | Some (String c mp) =>
          let split_mods := split_colon (String c mp) in
          when ((1 <? length split_mods)%nat && verbose)
            (print ("Multiple module paths found.  Using top one: " ++ hd "" split_mods));;
          ret (hd "" split_mods)
      | _ => input "Enter the root path for your module files:"
      end)%py w = (w0, r) -> fs w0 = fs w).
  { intros w1 w2 r'. unfold bind at 1. unfold getenv.
    destruct (osenv w1 !! "MODULEPATH") as [[|c mp]|]; try apply Hin.
    cbv zeta. unfold bind, when, print, ret.
    destruct (_ && verbose); by intros [= <- _]. }
  unfold find_modules_path. destruct modules_path as [[|c p]|]; try apply Henv.
  by intros [= <- _].
Qed.

Lemma join_longer (a x : string) :
  x <> "" -> startswith_slash x = false -> join a x <> a.
Proof.
  intros Hx Hs Heq. assert (Hl : String.length (join a x) = String.length a) by by rewrite Heq.
  rewrite (join_prefix a x Hs), length_append in Hl.
  assert (String.length a <= String.length (join a ""))%nat.
  { unfold join. cbn [startswith_slash]. destruct (String.eqb a "" || endswith a "/");
      rewrite length_append; lia. }
  destruct x; [done|]. cbn [String.length] in Hl. lia.
Qed.

(** The copies, once the directory [tree_mod] is there. *)
Lemma copy_modules_tail filespath tree_mod verbose w1 w' :
  isdir (fs w1) tree_mod = true ->
  (forall name, name <> "" -> contains "/" name = false ->
                is_plain (fs w1 !! join tree_mod name) = true) ->
  (when verbose (print ("Copying modules from etc/ into " ++ tree_mod));;
   module_files <- gets (fun σ => glob_modules σ filespath);;
   for_each (copy_module tree_mod) tt module_files;;
   let version := join filespath ".version" in
   v <- os_path_isfile version;;
   when v (shutil_copy2 version tree_mod))%py w1 = (w', Ok tt) ->
  let dirname := fst (split (join filespath "*.module")) in
  (forall base c m,
      base <> "" -> String.prefix "." base = false -> contains "/" base = false ->
      fs w1 !! join dirname (base ++ ".module") = Some (File c m) ->
      (forall name, contains "/" name = false ->
                    join dirname (base ++ ".module") <> join tree_mod name) ->
      fs w' !! join tree_mod base = Some (File c m))
  /\ (forall c m,
        fs w1 !! join filespath ".version" = Some (File c m) ->
        (forall name, contains "/" name = false ->
                      join filespath ".version" <> join tree_mod name) ->
        fs w' !! join tree_mod ".version" = Some (File c m)).
Proof.
  intros Hdir Hplain Hrun dirname.
  unfold bind at 1 in Hrun.
  destruct (when verbose _ w1) as [w2 r2] eqn:Hw2.
  assert (Hfs2 : fs w2 = fs w1 /\ r2 = Ok tt).
  { unfold when, print, ret in Hw2. destruct verbose; by injection Hw2 as <- <-. }
  destruct Hfs2 as [Hfs2 ->].
  unfold bind at 1 in Hrun. unfold gets at 1 in Hrun. rewrite Hfs2 in Hrun.
  set (L := glob_modules (fs w1) filespath) in *.
  unfold bind at 1 in Hrun.
  destruct (for_each (copy_module tree_mod) tt L w2) as [w3 [[]|e]] eqn:Hloop; [|done].
  rewrite <- (set_fs_id w2), Hfs2 in Hloop.
  assert (HL : forall mf, In mf L -> exists base,
              mf = join dirname (base ++ ".module") /\ base <> ""
              /\ String.prefix "." base = false /\ contains "/" base = false
              /\ dest tree_mod mf = join tree_mod base).
  { intros mf (base & -> & ? & ? & ? & _)%glob_modules_In. exists base.
    repeat (split; [done|]). by apply dest_module. }
  apply copy_loop in Hloop as [Hcopied Hother].
  2:{ apply glob_dest_NoDup. }
  2:{ intros mf (base & _ & ? & _ & Hs & ->)%HL. by apply Hplain. }
  assert (Hdir3 : isdir (fs w3) tree_mod = true).
  { unfold isdir in *.
    destruct (resolve MAXSYMLINKS (fs w1) tree_mod) as [q [| |]| |] eqn:Hres; try done.
    assert (Hchg : forall k, fs w3 !! k <> fs w1 !! k -> is_plain (fs w1 !! k) = true).
    { intros k Hk. destruct (in_dec string_dec k (List.map (dest tree_mod) L)) as [Hin|Hnin].
      - apply in_map_iff in Hin as (mf & <- & (base & _ & ? & _ & Hs & ->)%HL).
        by apply Hplain.
      - by rewrite Hother in Hk. }
    by rewrite (resolve_dir_stable _ _ _ _ _ _ _ Hchg Hres). }
  assert (Hvd : ~ In (join tree_mod ".version") (List.map (dest tree_mod) L)).
  { intros (mf & Heq & (base & _ & _ & Hdot & Hs & Hd)%HL)%in_map_iff.
    rewrite Hd in Heq. apply join_inj in Heq; [by subst|by apply no_slash_start|done]. }
  assert (Hmod : forall base c m,
      base <> "" -> String.prefix "." base = false -> contains "/" base = false ->
      fs w1 !! join dirname (base ++ ".module") = Some (File c m) ->
      (forall name, contains "/" name = false ->
                    join dirname (base ++ ".module") <> join tree_mod name) ->
      fs w3 !! join tree_mod base = Some (File c m)).
  { intros base c m Hne Hdot Hs Hsrc Halias.
    rewrite <- (dest_module tree_mod dirname base) by done.
    apply Hcopied; [|intros mf' (b' & _ & _ & _ & Hs' & ->)%HL; by apply Halias|done].
    apply glob_modules_In. exists base. by rewrite Hsrc. }
  cbv zeta in Hrun. unfold bind, os_path_isfile, gets in Hrun.
  destruct (isfile (fs w3) (join filespath ".version")) eqn:Hv.
  - unfold when, shutil_copy2 in Hrun. rewrite Hdir3 in Hrun.
    rewrite (basename_join filespath ".version") in Hrun by done.
    assert (Hpv : is_plain (fs w3 !! join tree_mod ".version") = true).
    { rewrite Hother by done. by apply Hplain. }
    assert (Hw' : exists q c m, resolve MAXSYMLINKS (fs w3) (join filespath ".version")
                                = Found q (File c m)
                    /\ w' = set_fs (<[join tree_mod ".version" := File c m]> (fs w3)) w3).
    { unfold isfile in Hv.
      destruct (resolve MAXSYMLINKS (fs w3) (join filespath ".version"))
        as [q [c m| |]| |]; try done.
      exists q, c, m.
      destruct (resolve_plain MAXSYMLINKS _ _ Hpv) as [Hr|(? & ? & Hr)]; rewrite Hr in Hrun.
      - by injection Hrun as <-.
      - destruct (String.eqb q _); [done|]. by injection Hrun as <-. }
    destruct Hw' as (q & c & m & Hres & ->). split.
    + intros base c' m' Hne Hdot Hs Hsrc Halias. rewrite fs_set_fs, lookup_insert_ne.
      * by apply Hmod.
      * intros Heq. apply join_inj in Heq; [by subst|done|by apply no_slash_start].
    + intros c' m' Hsrc Halias. rewrite (resolve_File _ _ _ c' m') in Hres.
      * injection Hres as _ <- <-. by rewrite fs_set_fs, lookup_insert_eq.
      * rewrite Hother; [done|].
        intros (mf & Heq & (base & _ & _ & _ & Hs & Hd)%HL)%in_map_iff.
        rewrite Hd in Heq. by apply (Halias base).
  - unfold when, ret in Hrun. injection Hrun as <-. split; [exact Hmod|].
    intros c m Hsrc Halias. unfold isfile in Hv. rewrite (resolve_File _ _ _ c m) in Hv; [done|].
    rewrite Hother; [done|].
    intros (mf & Heq & (base & _ & _ & _ & Hs & Hd)%HL)%in_map_iff.
    rewrite Hd in Heq. by apply (Halias base).
Qed.


(** ** Running the links twice *)









(** ** The loop follows its plan *)

Lemma in_list_In x l : in_list x l = true <-> In x l.
Proof.
  unfold in_list. rewrite existsb_exists. split.
  - by intros (y & Hin & ->%String.eqb_eq).
  - intros Hin. exists x. by rewrite String.eqb_refl.
Qed.




Lemma resolve_Dir n (σ : gmap string node) p m wr :
  σ !! p = Some (Dir m wr) -> resolve n σ p = Found p (Dir m wr).
Proof. intros H. destruct n; cbn [resolve]; by rewrite H. Qed.








Lemma getitem_setitem {V} (d : dict V) k v : getitem (setitem d k v) k = Some v.
Proof.
  induction d as [|[k' v'] d IH]; cbn [setitem getitem].
  - by rewrite String.eqb_refl.
  - destruct (String.eqb k' k) eqn:E; cbn [getitem]; [by rewrite String.eqb_refl|].
    by rewrite E.
Qed.

Lemma getitem_setitem_ne {V} (d : dict V) k k' v :
  k <> k' -> getitem (setitem d k v) k' = getitem d k'.
Proof.
  intros Hne. induction d as [|[k0 v0] d IH]; cbn [setitem getitem].
  - by apply String.eqb_neq in Hne as ->.
  - destruct (String.eqb k0 k) eqn:E; cbn [getitem].
    + apply String.eqb_eq in E as ->. by apply String.eqb_neq in Hne as ->.
    + by rewrite IH.
Qed.

Lemma last_char_None (s : string) : last_char s = None -> s = "".
Proof.
  induction s as [|c s IH]; [done|]. cbn [last_char]. destruct s; [done|].
  intros H. by apply IH in H.
Qed.

Lemma last_char_upper (s : string) :
  last_char (upper s) = option_map upper_ascii (last_char s).
Proof.
  induction s as [|c s IH]; [done|]. cbn [upper last_char]. rewrite IH. by destruct s.
Qed.

Lemma upper_ascii_not_lower (c : ascii) :
  upper_ascii c <> "v"%char /\ upper_ascii c <> "l"%char.
Proof. destruct c as [[] [] [] [] [] [] [] []]; by vm_compute. Qed.

Lemma endswith_last_char (s : string) : endswith s "/" = true -> last_char s = Some "/"%char.
Proof. intros [base ->]%endswith_app. by rewrite last_char_app. Qed.

(** The last character of the name of a link is a slash or in upper case. *)
Lemma link_path_last envdir name :
  envdir <> "" -> endswith envdir "/" = false ->
  last_char (link_path envdir name) = Some "/"%char
  \/ exists c, last_char (link_path envdir name) = Some (upper_ascii c).
Proof.
  intros Hne He. unfold link_path. destruct (upper name) as [|c u] eqn:Hu.
  - left. unfold join. cbn [startswith_slash]. apply String.eqb_neq in Hne. rewrite Hne, He.
    cbn [orb]. by rewrite last_char_app.
  - right. rewrite last_char_join by done. rewrite <- Hu, last_char_upper.
    destruct (last_char name) as [c'|] eqn:El; [by exists c'|].
    apply last_char_None in El as ->. done.
Qed.

Lemma envdir_facts root :
  join root "env" <> "" /\ endswith (join root "env") "/" = false
  /\ last_char (join root "env") = Some "v"%char.
Proof.
  assert (Hl : last_char (join root "env") = Some "v"%char) by by rewrite last_char_join.
  split; [intros E; by rewrite E in Hl|]. split; [|done].
  destruct (endswith (join root "env") "/") eqn:E; [|done].
  apply endswith_last_char in E. congruence.
Qed.


Lemma link_not_index root name :
  link_path (join root "env") name <> join (join root "env") "index.html".
Proof.
  destruct (envdir_facts root) as (Hne & He & _). intros Heq.
  destruct (link_path_last _ name Hne He) as [H|[c H]];
    rewrite Heq, last_char_join in H by done; [discriminate|].
  cbn [last_char] in H. destruct (upper_ascii_not_lower c). congruence.
Qed.

Lemma all_links_In envdir (env : environ) k :
  In k (all_links envdir env) -> exists name, k = link_path envdir name.
Proof.
  unfold all_links. intros ([section items] & _ & H)%in_flat_map. cbn [fst snd] in H.
  destruct (String.eqb section "default"); [done|].
  apply in_map_iff in H as (nv & <- & _). by eexists.
Qed.

Section PlanFacts.

Variable localtime : Z -> struct_time.






Lemma create_env_unfold (env : environ) mirror verbose w d g root :
  getitem env "default" = Some d ->
  getitem env "general" = Some g ->
  getitem g "sas_root" = Some (VStr root) ->
  create_env localtime env mirror verbose w =
    if negb (exists_ (fs w) root)
    then when verbose (print (root ++ " doesn't exist, skipping env link creation.")) w
    else (when verbose (print ("Found " ++ root ++ "."));;
          dir_phase localtime env (defaults_of d mirror) (join root "env"))%py w.
Proof.
  intros Hd Hg Hr. unfold create_env, get. rewrite Hd, Hg.
  unfold bind at 1. unfold ret at 1. unfold bind at 1. unfold ret at 1.
  rewrite Hr. unfold bind at 1. unfold ret at 1.
  unfold bind at 1. unfold lift, fspath. unfold bind at 1.
  unfold os_path_exists at 1. unfold gets at 1.
  by destruct (exists_ (fs w) root).
Qed.




Lemma dir_phase_run (env : environ) defaults envdir w :
  exists_ (fs w) envdir = true ->
  dir_phase localtime env defaults envdir w =
    if negb (access_w (fs w) envdir) then (w, Ok tt)
    else link_phase localtime env defaults envdir w.
Proof.
  intros He. unfold dir_phase, bind, os_path_exists, os_access_w, gets, when, ret.
  rewrite He. cbn [negb]. by destruct (access_w (fs w) envdir).
Qed.



End PlanFacts.

(** * The claims at sample inputs *)

(** C1, as stated, fails: [data_root] of the section [cat] has [_root] in its
    name, its target is there, and yet it gets no link, no row and no line,
    where [spectro] beside it, with the same target, gets all three. *)
Lemma root_outside_general_counterexample :
  String.eqb "cat" "general" = false
  /\ contains "_root" "data_root" = true
  /\ exists_ (fs sample_world) "/data/spectro" = true
  /\ fs (fst (create_index_table gmtime newer_env "/sas/env" sample_world))
       !! "/sas/env/SPECTRO" = Some (Link "/data/spectro")
  /\ fs (fst (index_variable gmtime "/sas/env" "cat" table_header
                ("data_root", VStr "/data/spectro") sample_world))
       !! "/sas/env/DATA_ROOT" = None
  /\ index_variable gmtime "/sas/env" "cat" table_header
       ("data_root", VStr "/data/spectro") sample_world
     = (sample_world, Ok table_header).
Proof. repeat split; vm_compute; reflexivity. Qed.


(** C5, as stated, fails: called as [main] calls it, without [verbose],
    [create_env] prints nothing when the archive root is missing. *)
Lemma missing_root_silent_counterexample :
  exists_ (fs bare_world) "/sas" = false
  /\ create_env gmtime sample_env false false bare_world = (bare_world, Ok tt)
  /\ out (fst (create_env gmtime sample_env false false bare_world)) = [].
Proof. repeat split; vm_compute; reflexivity. Qed.


(** A second run is not the first one over again when a target lies in the
    env directory: [alias] is passed over in the first run, its target not
    being made yet, and linked in the second. *)
Example link_into_env_not_idempotent :
  independent (fs sample_world) inward_env = false
  /\ fs (fst (create_env gmtime inward_env false false sample_world)) !! "/sas/env/ALIAS" = None
  /\ fs (fst (create_env gmtime inward_env false false
                (fst (create_env gmtime inward_env false false sample_world))))
       !! "/sas/env/ALIAS" = Some (Link "/sas/env/SPECTRO").
Proof. repeat split; vm_compute; reflexivity. Qed.

(** C7 at [late], whose target is not there: the stale link goes. *)
Lemma stat_failure_is_skipped_witness :
  contains "_root" "late" = false
  /\ stat (fs sample_world) "/data/late" = Raise (OSError ENOENT)
  /\ (let w' := set_fs (remove_link (fs sample_world) (join "/sas/env" (upper "late")))
                  (say ("/data/late" ++ " does not appear to exist, skipping...")
                     sample_world) in
      index_variable gmtime "/sas/env" "cat" table_header ("late", VStr "/data/late")
        sample_world = (w', Ok table_header)
      /\ for_each (index_variable gmtime "/sas/env" "cat") table_header
           [("late", VStr "/data/late"); ("spectro", VStr "/data/spectro")] sample_world
         = for_each (index_variable gmtime "/sas/env" "cat") table_header
             [("spectro", VStr "/data/spectro")] w'
      /\ islink (fs w') (join "/sas/env" (upper "late")) = false).
Proof.
  split; [reflexivity|]. split; [vm_compute; reflexivity|].
  apply (stat_failure_is_skipped gmtime "/sas/env" "cat" table_header "late" "/data/late"
           [("spectro", VStr "/data/spectro")] sample_world (OSError ENOENT));
    [reflexivity|vm_compute; reflexivity].
Defined.

(** C10 at [sas_base_dir] of the sample configuration. *)
Lemma sas_base_dir_never_linked_witness :
  contains "sas_base_dir" "sas_base_dir" = true
  /\ exists w',
      index_variable gmtime "/sas/env" "general" table_header
        ("sas_base_dir", VStr "/data") sample_world = (w', Ok table_header)
      /\ fs w' ⊆ fs sample_world
      /\ (contains "_root" "sas_base_dir" = false ->
          exists msg, out w' = (out sample_world ++ [msg])%list)
      /\ (contains "_root" "sas_base_dir" = false ->
          exists_ (fs sample_world) "/data" = true ->
          w' = say ("Skipping " ++ "sas_base_dir" ++ " for general") sample_world).
Proof.
  split; [reflexivity|].
  apply (sas_base_dir_never_linked gmtime "/sas/env" table_header "sas_base_dir" "/data"
           sample_world). reflexivity.
Defined.

(** C6 at [cas_load], whose target is there, and at [spectro] of [cat]. *)
Lemma optional_and_ordinary_variables_witness :
  ("cas_load" = "cas_load" \/ "cas_load" = "staging_data")
  /\ exists_ (fs sample_world) "/data/cas" = true
  /\ blocked (fs sample_world) (join "/sas/env" (upper "cas_load")) = false
  /\ (fs (fst (index_variable gmtime "/sas/env" "general" table_header
                 ("cas_load", VStr "/data/cas") sample_world))
      = <[join "/sas/env" (upper "cas_load") := Link "/data/cas"]> (fs sample_world)
      /\ exists t, snd (index_variable gmtime "/sas/env" "general" table_header
                          ("cas_load", VStr "/data/cas") sample_world) = Ok t)
  /\ "cat" <> "general"
  /\ contains "_root" "late" = false
  /\ exists_ (fs sample_world) "/data/late" = false
  /\ fs (fst (index_variable gmtime "/sas/env" "cat" table_header
                ("late", VStr "/data/late") sample_world))
     = fs (fst (_remove_link (join "/sas/env" (upper "late")) sample_world)).
Proof.
  split; [by left|]. split; [vm_compute; reflexivity|]. split; [vm_compute; reflexivity|].
  split.
  { apply (proj1 (optional_and_ordinary_variables gmtime "/sas/env" table_header)
             "cas_load" "/data/cas" sample_world _ _ (or_introl eq_refl)
             (surjective_pairing _)); vm_compute; reflexivity. }
  split; [discriminate|]. split; [reflexivity|]. split; [vm_compute; reflexivity|].
  apply (proj2 (optional_and_ordinary_variables gmtime "/sas/env" table_header)
           "cat" "late" "/data/late" sample_world _ _ ltac:(discriminate) eq_refl
           (surjective_pairing _)). vm_compute; reflexivity.
Defined.

(** C5 (as the code has it) with [verbose] set. *)
Lemma missing_root_is_no_op_witness :
  getitem sample_env "default" = Some [("name", VStr "v1"); ("current", VBool true)]
  /\ getitem sample_env "general"
     = Some [("sas_root", VStr "/sas"); ("cas_load", VStr "/data/cas");
             ("sas_base_dir", VStr "/data")]
  /\ exists_ (fs bare_world) "/sas" = false
  /\ create_env gmtime sample_env false true bare_world
     = (say ("/sas" ++ " doesn't exist, skipping env link creation.") bare_world, Ok tt).
Proof.
  split; [reflexivity|]. split; [reflexivity|]. split; [vm_compute; reflexivity|].
  apply (missing_root_is_no_op gmtime sample_env false true bare_world
           [("name", VStr "v1"); ("current", VBool true)]
           [("sas_root", VStr "/sas"); ("cas_load", VStr "/data/cas");
            ("sas_base_dir", VStr "/data")] "/sas");
    first [reflexivity | vm_compute; reflexivity].
Defined.


(** C3 at the configuration of the specification: [modules] writes
    [.version], [bash] leaves it alone. *)
Lemma version_file_iff_modules_and_current_witness :
  write_file spec_env "modules" "/t/etc" "/t/" etc_world
  = (fst (write_file spec_env "modules" "/t/etc" "/t/" etc_world), Ok tt)
  /\ read (fs (fst (write_file spec_env "modules" "/t/etc" "/t/" etc_world)))
       (join "/t/etc" ".version")
     = Some ("#%Module1.0" ++ nl ++ "set ModulesVersion " ++ "v1")
  /\ write_file spec_env "bash" "/t/etc" "/t/" etc_world
     = (fst (write_file spec_env "bash" "/t/etc" "/t/" etc_world), Ok tt)
  /\ fs (fst (write_file spec_env "bash" "/t/etc" "/t/" etc_world)) !! join "/t/etc" ".version"
     = fs etc_world !! join "/t/etc" ".version".
Proof.
  assert (Hm : write_file spec_env "modules" "/t/etc" "/t/" etc_world
               = (fst (write_file spec_env "modules" "/t/etc" "/t/" etc_world), Ok tt))
    by (vm_compute; reflexivity).
  assert (Hb : write_file spec_env "bash" "/t/etc" "/t/" etc_world
               = (fst (write_file spec_env "bash" "/t/etc" "/t/" etc_world), Ok tt))
    by (vm_compute; reflexivity).
  split; [exact Hm|]. split.
  { apply (proj1 (version_file_iff_modules_and_current spec_env "modules" "/t/etc" "/t/"
                    etc_world _ [("name", VStr "v1"); ("current", VBool true)] "v1"
                    (VBool true) ".module" eq_refl eq_refl eq_refl eq_refl Hm)).
    by split. }
  split; [exact Hb|].
  apply (proj2 (version_file_iff_modules_and_current spec_env "bash" "/t/etc" "/t/"
                  etc_world _ [("name", VStr "v1"); ("current", VBool true)] "v1"
                  (VBool true) ".sh" eq_refl eq_refl eq_refl eq_refl Hb)).
  - by intros [? _].
  - vm_compute; reflexivity.
Defined.




(** Nothing stands in [/m/tree] on the sample machine. *)
Lemma etc_tree_free name :
  contains "/" name = false ->
  join (join "/m" "tree") name = "/m/tree/" ++ name
  /\ fs etc_world !! join (join "/m" "tree") name = None.
Proof.
  intros Hs.
  assert (Hj : join (join "/m" "tree") name = "/m/tree/" ++ name).
  { unfold join at 1. rewrite (no_slash_start _ Hs). reflexivity. }
  split; [exact Hj|]. rewrite Hj.
  apply not_elem_of_list_to_map_1.
  cbn [fmap list_fmap fst].
  rewrite !elem_of_cons, elem_of_nil.
  intros [H|[H|[H|[H|[]]]]]; discriminate H.
Qed.



(** * Further properties *)

(** ** What a run leaves alone *)

Section Preserves.

Context (R : relation (option node)) `{!PreOrder R}.

Lemma preserves_same {A} (m : M A) :
  (forall w w' r, m w = (w', r) -> fs w' = fs w) -> preserves R m.
Proof. intros H w w' r Hm k. by rewrite (H _ _ _ Hm). Qed.

Lemma preserves_ret {A} (a : A) : preserves R (ret a).
Proof. apply preserves_same. by intros w w' r [= <- _]. Qed.

Lemma preserves_raise {A} e : preserves R (@raise A e).
Proof. apply preserves_same. by intros w w' r [= <- _]. Qed.

Lemma preserves_lift {A} (x : result A) : preserves R (lift x).
Proof. apply preserves_same. by intros w w' r [= <- _]. Qed.

Lemma preserves_gets {A} (f : gmap string node -> A) : preserves R (gets f).
Proof. apply preserves_same. by intros w w' r [= <- _]. Qed.

Lemma preserves_get {V} (d : dict V) k : preserves R (get d k).
Proof. unfold get. destruct (getitem d k); [apply preserves_ret|apply preserves_raise]. Qed.

Lemma preserves_print s : preserves R (print s).
Proof. apply preserves_same. by intros w w' r [= <- _]. Qed.

Lemma preserves_getenv k : preserves R (getenv k).
Proof. apply preserves_same. by intros w w' r [= <- _]. Qed.

Lemma preserves_input p : preserves R (input p).
Proof. apply preserves_same. intros w w' r. unfold input. destruct (stdin w); by intros [= <- _]. Qed.

Lemma preserves_os_stat p : preserves R (os_stat p).
Proof. apply preserves_same. by intros w w' r [= <- _]. Qed.

Lemma preserves_bind {A B} (m : M A) (f : A -> M B) :
  preserves R m -> (forall a, preserves R (f a)) -> preserves R (bind m f).
Proof.
  intros Hm Hf w w' r Hrun k. unfold bind in Hrun.
  destruct (m w) as [w1 [a|e]] eqn:E.
  - etrans; [by eapply Hm|by eapply Hf].
  - injection Hrun as <- _. by eapply Hm.
Qed.

Lemma preserves_try {A} (m h : M A) :
  preserves R m -> preserves R h -> preserves R (try_OSError m h).
Proof.
  intros Hm Hh w w' r Hrun k. unfold try_OSError in Hrun.
  destruct (m w) as [w1 [a|e]] eqn:E.
  - injection Hrun as <- _. by eapply Hm.
  - destruct (is_OSError e).
    + etrans; [by eapply Hm|by eapply Hh].
    + injection Hrun as <- _. by eapply Hm.
Qed.

Lemma preserves_when c m : preserves R m -> preserves R (when c m).
Proof. intros. unfold when. destruct c; [done|apply preserves_ret]. Qed.

Lemma preserves_for_each {A S} (f : S -> A -> M S) l :
  (forall s a, preserves R (f s a)) -> forall s, preserves R (for_each f s l).
Proof.
  intros Hf. induction l as [|a l IH]; intros s; cbn [for_each].
  - apply preserves_ret.
  - apply preserves_bind; [apply Hf|apply IH].
Qed.

End Preserves.

#[global] Instance same_solid_preorder : PreOrder same_solid.
Proof. split; unfold same_solid; [done|intros a b c; congruence]. Qed.

#[global] Instance kept_preorder : PreOrder kept.
Proof.
  split.
  - intros [[| |]|]; cbn; eauto.
  - intros [[| |]|] b c; cbn; try done.
    + by intros (? & ? & ->).
    + by intros ->.
Qed.

#[global] Instance stays_preorder : PreOrder stays.
Proof.
  split.
  - intros [[| |]|]; cbn; eauto.
  - intros [[| |]|] b c; cbn; try done.
    + by intros (? & ? & ->).
    + by intros ->.
    + by intros ->.
Qed.

Lemma stays_kept a b : stays a b -> kept a b.
Proof. by destruct a as [[| |]|]. Qed.

Lemma same_solid_kept a b : same_solid a b -> kept a b.
Proof.
  unfold same_solid. destruct a as [[| |]|], b as [[| |]|]; cbn; intros; simplify_eq; eauto.
Qed.

Lemma preserves_weaken {A} (R R' : option node -> option node -> Prop) (m : M A) :
  (forall a b, R a b -> R' a b) -> preserves R m -> preserves R' m.
Proof. intros H Hm w w' r Hrun k. by eapply H, Hm. Qed.

(** [_remove_link] takes away nothing but a symbolic link. *)
Lemma remove_link_same_solid link : preserves same_solid (_remove_link link).
Proof.
  intros w w' r Hrun k. rewrite remove_link_spec in Hrun. injection Hrun as <- _.
  rewrite fs_set_fs. unfold same_solid, remove_link, islink.
  destruct (decide (k = link)) as [->|Hne].
  - destruct (fs w !! link) as [[| |]|] eqn:E; rewrite ?lookup_delete_eq, ?E; done.
  - destruct (fs w !! link) as [[| |]|]; rewrite ?lookup_delete_ne by done; done.
Qed.

(** [make_symlink] puts a symbolic link where there was one or nothing. *)
Lemma make_symlink_same_solid src link : preserves same_solid (make_symlink src link).
Proof.
  intros w w' r Hrun k. rewrite make_symlink_spec in Hrun. unfold blocked in Hrun.
  unfold same_solid.
  destruct (fs w !! link) as [[| |]|] eqn:E; injection Hrun as <- _; try done;
    rewrite fs_set_fs;
    (destruct (decide (k = link)) as [->|Hne];
     [by rewrite lookup_insert_eq, E|by rewrite lookup_insert_ne]).
Qed.

(** Going through a computation, call by call; [tac] settles the calls
    that change entries. *)
Ltac preserves_with tac :=
  repeat first
    [ progress intros
    | progress cbv zeta
    | tac
    | apply preserves_ret | apply preserves_raise | apply preserves_lift
    | apply preserves_gets | apply preserves_get | apply preserves_print
    | apply preserves_getenv | apply preserves_input | apply preserves_os_stat
    | apply preserves_try | apply preserves_when | apply preserves_for_each
    | apply preserves_bind
    | match goal with
      | |- PreOrder _ => exact _
      | |- preserves _ (if ?b then _ else _) => destruct b
      | |- preserves _ (match ?x with _ => _ end) => destruct x
      end ].

Lemma index_variable_same_solid localtime envdir section table item :
  preserves same_solid (index_variable localtime envdir section table item).
Proof.
  destruct item as [tree_name tree_path]. unfold index_variable.
  preserves_with ltac:(first [apply remove_link_same_solid|apply make_symlink_same_solid]).
Qed.

Lemma create_index_table_same_solid localtime env envdir :
  preserves same_solid (create_index_table localtime env envdir).
Proof.
  unfold create_index_table, index_section.
  preserves_with ltac:(apply index_variable_same_solid).
Qed.

(** X1: whatever its outcome, [create_index_table] adds and removes nothing
    but symbolic links: every name holds afterwards the file or the directory
    it held before, or none as before. *)
Theorem create_index_table_only_links localtime (env : environ) envdir w k :
  solid (fs (fst (create_index_table localtime env envdir w)) !! k) = solid (fs w !! k).
Proof.
  destruct (create_index_table localtime env envdir w) as [w' r] eqn:E.
  symmetry. by apply (create_index_table_same_solid localtime env envdir w w' r E k).
Qed.

Lemma resolve_lookup n (σ : gmap string node) p :
  match resolve n σ p with
  | Found q nd => σ !! q = Some nd /\ forall t, nd <> Link t
  | Missing q => σ !! q = None
  | Loop => True
  end.
Proof.
  revert p. induction n as [|n IH]; intros p; cbn [resolve].
  - by destruct (σ !! p) as [[| |]|] eqn:E.
  - destruct (σ !! p) as [[| |t]|] eqn:E; try done. apply IH.
Qed.

Lemma insert_file_stays (σ : gmap string node) q c m k :
  is_plain (σ !! q) = true -> stays (σ !! k) (<[q := File c m]> σ !! k).
Proof.
  intros Hq. destruct (decide (k = q)) as [->|Hne].
  - rewrite lookup_insert_eq. destruct (σ !! q) as [[| |]|]; cbn in *; eauto; done.
  - rewrite lookup_insert_ne by done. reflexivity.
Qed.

Lemma write_target_plain σ p q : write_target σ p = Ok q -> is_plain (σ !! q) = true.
Proof.
  unfold write_target. pose proof (resolve_lookup MAXSYMLINKS σ p) as H.
  destruct (resolve MAXSYMLINKS σ p) as [q' [| |]| |]; intros [= ->].
  - destruct H as [-> _]. done.
  - by rewrite H.
Qed.

Lemma os_makedirs_stays p : preserves stays (os_makedirs p).
Proof.
  intros w w' r Hrun k. unfold os_makedirs in Hrun.
  destruct (fs w !! p) eqn:E; injection Hrun as <- _; [reflexivity|].
  rewrite fs_set_fs. destruct (decide (k = p)) as [->|Hne].
  - by rewrite E.
  - rewrite lookup_insert_ne by done. reflexivity.
Qed.

Lemma open_w_stays p : preserves stays (open_w p).
Proof.
  intros w w' r Hrun k. unfold open_w in Hrun.
  destruct (write_target (fs w) p) as [q|e] eqn:E; injection Hrun as <- _; [|reflexivity].
  rewrite fs_set_fs. by apply insert_file_stays, (write_target_plain _ p).
Qed.

Lemma f_write_stays f s : preserves stays (f_write f s).
Proof.
  intros w w' r Hrun k. unfold f_write in Hrun.
  destruct (fs w !! f) as [[c m| |]|] eqn:E; injection Hrun as <- _; try reflexivity.
  rewrite fs_set_fs. apply insert_file_stays. by rewrite E.
Qed.

Lemma shutil_copy2_stays src dst : preserves stays (shutil_copy2 src dst).
Proof.
  intros w w' r Hrun k. unfold shutil_copy2 in Hrun.
  set (d := if isdir (fs w) dst then join dst (basename src) else dst) in Hrun.
  pose proof (resolve_lookup MAXSYMLINKS (fs w) d) as Hd.
  destruct (resolve MAXSYMLINKS (fs w) src) as [q [c m|m wr|t]| |];
    destruct (resolve MAXSYMLINKS (fs w) d) as [q' [c' m'|m' wr'|t']| |];
    try destruct (String.eqb q q');
    injection Hrun as <- _; try reflexivity;
    rewrite fs_set_fs; apply insert_file_stays.
  - destruct Hd as [-> _]. done.
  - by rewrite Hd.
Qed.

Ltac stays_calls :=
  first [apply os_makedirs_stays | apply open_w_stays | apply f_write_stays
        | apply shutil_copy2_stays].

Lemma write_file_stays env term out_dir tree_dir :
  preserves stays (write_file env term out_dir tree_dir).
Proof.
  unfold write_file, write_header, write_section, write_variable.
  preserves_with stays_calls.
Qed.

Lemma copy_modules_stays filespath modules_path verbose :
  preserves stays (copy_modules filespath modules_path verbose).
Proof.
  unfold copy_modules, find_modules_path, copy_module.
  preserves_with stays_calls.
Qed.

Ltac kept_calls :=
  first [ apply (preserves_weaken stays kept _ stays_kept); stays_calls
        | apply (preserves_weaken same_solid kept _ same_solid_kept);
          apply create_index_table_same_solid ].

Lemma create_env_kept localtime env mirror verbose :
  preserves kept (create_env localtime env mirror verbose).
Proof.
  unfold create_env, create_index_page.
  preserves_with kept_calls.
Qed.

(** X3: whatever its outcome, [create_env] deletes no file and no directory:
    a directory is afterwards as it was, and a regular file is still a
    regular file. *)
Theorem create_env_keeps_files localtime (env : environ) mirror verbose w k :
  kept (fs w !! k) (fs (fst (create_env localtime env mirror verbose w)) !! k).
Proof.
  destruct (create_env localtime env mirror verbose w) as [w' r] eqn:E.
  by apply (create_env_kept localtime env mirror verbose w w' r E k).
Qed.

(** X16: whatever its outcome, [write_file] deletes nothing and leaves every
    directory and every symbolic link as it was; a regular file stays a
    regular file. *)
Theorem write_file_never_deletes (env : environ) term out_dir tree_dir w k :
  stays (fs w !! k) (fs (fst (write_file env term out_dir tree_dir w)) !! k).
Proof.
  destruct (write_file env term out_dir tree_dir w) as [w' r] eqn:E.
  by apply (write_file_stays env term out_dir tree_dir w w' r E k).
Qed.

(** X21: whatever its outcome, [copy_modules] deletes nothing and leaves
    every directory and every symbolic link as it was; a regular file stays
    a regular file. *)
Theorem copy_modules_never_deletes filespath modules_path verbose w k :
  stays (fs w !! k) (fs (fst (copy_modules filespath modules_path verbose w)) !! k).
Proof.
  destruct (copy_modules filespath modules_path verbose w) as [w' r] eqn:E.
  by apply (copy_modules_stays filespath modules_path verbose w w' r E k).
Qed.

Lemma check_sas_base_dir_same root w w' r :
  check_sas_base_dir root w = (w', r) -> fs w' = fs w.
Proof.
  assert (Henv : forall w w' (r : result unit),
    (sasbasedir <- getenv "SAS_BASE_DIR";;
     sasbasedir <- match sasbasedir with
                   | Some (String c s) => ret (String c s)
                   | _ => input "Enter a path for SAS_BASE_DIR: "
                   end;;
     os_environ_set "SAS_BASE_DIR" sasbasedir)%py w = (w', r) -> fs w' = fs w).
  { clear. intros w w' r. unfold bind, getenv, ret, input, os_environ_set.
    destruct (osenv w !! "SAS_BASE_DIR") as [[|c s]|]; try (by intros [= <- _]);
      destruct (stdin w); by intros [= <- _]. }
  unfold check_sas_base_dir. destruct root as [[|c s]|]; cbn [given]; try apply Henv.
  by intros [= <- _].
Qed.

Section DriverFacts.

Variable localtime : Z -> struct_time.
Variable get_tree : string -> M environ.

Lemma main_kept opts :
  (forall cfgfile, preserves kept (get_tree cfgfile)) ->
  preserves kept (main localtime get_tree opts).
Proof.
  intros Hload. unfold main, main_config.
  preserves_with ltac:(first
    [ apply Hload
    | apply preserves_same, check_sas_base_dir_same
    | apply create_env_kept
    | apply (preserves_weaken stays kept _ stays_kept); apply write_file_stays
    | apply (preserves_weaken stays kept _ stays_kept); apply copy_modules_stays ]).
Qed.

End DriverFacts.

(** ** The environment files *)

Lemma rstrip_by_app f (a b : string) :
  rstrip_by f b <> "" -> rstrip_by f (a ++ b) = a ++ rstrip_by f b.
Proof.
  intros Hb. induction a as [|c a IH]; [done|].
  rewrite !append_cons. cbn [rstrip_by]. rewrite IH.
  destruct (a ++ rstrip_by f b) eqn:E; [|done].
  destruct a; [|done]. by destruct (rstrip_by f b).
Qed.

Lemma rstrip_by_app_ne f (a b : string) : rstrip_by f b <> "" -> rstrip_by f (a ++ b) <> "".
Proof.
  intros Hb. rewrite rstrip_by_app by done. destruct a; [done|]. by rewrite append_cons.
Qed.

Lemma lstrip_by_app_cons f c (a b : string) :
  f c = false -> lstrip_by f (String c a ++ b) = String c a ++ b.
Proof. intros Hc. rewrite append_cons. cbn [lstrip_by]. by rewrite Hc. Qed.

Lemma rstrip_by_snoc f (a : string) c :
  f c = true -> rstrip_by f (a ++ String c "") = rstrip_by f a.
Proof.
  intros Hc. induction a as [|x a IH].
  - change ("" ++ String c "") with (String c ""). cbn [rstrip_by]. by rewrite Hc.
  - rewrite append_cons. cbn [rstrip_by]. by rewrite IH.
Qed.






(** X10: for a dialect that is not [bash], [tsch] or [modules], [write_file]
    writes nothing: it raises [AssertionError], or [KeyError] when the
    [default] section or its [name] is missing, these being looked up
    first. *)
Theorem write_file_unknown_dialect (env : environ) term out_dir tree_dir w :
  in_list term ["bash"; "tsch"; "modules"] = false ->
  write_file env term out_dir tree_dir w =
    (w, Raise match getitem env "default" with
              | None => KeyError "default"
              | Some d => match getitem d "name" with
                          | None => KeyError "name"
                          | Some _ => AssertionError
                          end
              end).
Proof.
  intros Hterm. unfold write_file, get.
  destruct (getitem env "default") as [d|]; [|done].
  unfold bind at 1. unfold ret at 1.
  destruct (getitem d "name") as [name|]; [|done].
  unfold bind at 1. unfold ret at 1.
  unfold bind at 1. unfold write_header. by rewrite Hterm.
Qed.

(** X11: the header [write_header] returns, line by line: [strip] takes the
    indentation and the empty lines off its end.  In the two shell dialects
    [TREE_VER] is set to the name of the dialect; the modules header sets
    [version] to the name of the configuration. *)
Theorem write_header_text tree_dir name w :
  write_header "bash" tree_dir name w =
    (w, Ok ("# Set up tree/" ++ str name ++ " for bash" ++ nl
            ++ "export TREE_DIR " ++ rstrip_slash tree_dir ++ nl
            ++ "export TREE_VER bash" ++ nl
            ++ "export PATH $TREE_DIR/bin:$PATH" ++ nl
            ++ "export PYTHONPATH $TREE_DIR/python:$PYTHONPATH"))
  /\ write_header "tsch" tree_dir name w =
    (w, Ok ("# Set up tree/" ++ str name ++ " for tsch" ++ nl
            ++ "setenv TREE_DIR " ++ rstrip_slash tree_dir ++ nl
            ++ "setenv TREE_VER tsch" ++ nl
            ++ "setenv PATH $TREE_DIR/bin:$PATH" ++ nl
            ++ "setenv PYTHONPATH $TREE_DIR/python:$PYTHONPATH"))
  /\ write_header "modules" tree_dir name w =
    (w, Ok ("#%Module1.0" ++ nl
            ++ "proc ModulesHelp { } {" ++ nl
            ++ "    global product version" ++ nl
            ++ "    puts stderr " ++ dq
            ++ "This module adds $product/$version to various paths" ++ dq ++ nl
            ++ "}" ++ nl
            ++ "set name tree" ++ nl
            ++ "set product tree" ++ nl
            ++ "set version " ++ str name ++ nl
            ++ "conflict $product" ++ nl
            ++ "module-whatis " ++ dq
            ++ "Sets up $product/$version in your environment" ++ dq ++ nl
            ++ nl
            ++ "set PRODUCT_DIR " ++ rstrip_slash tree_dir ++ nl
            ++ "setenv [string toupper $product]_DIR $PRODUCT_DIR" ++ nl
            ++ "setenv [string toupper $product]_VER $version" ++ nl
            ++ "prepend-path PATH $PRODUCT_DIR/bin" ++ nl
            ++ "prepend-path PYTHONPATH $PRODUCT_DIR/python")).
Proof.
  assert (Hshell : forall term base,
    strip (shell_header (str name) term base (rstrip_slash tree_dir)) =
    "# Set up tree/" ++ str name ++ " for " ++ term ++ nl
    ++ base ++ " TREE_DIR " ++ rstrip_slash tree_dir ++ nl
    ++ base ++ " TREE_VER " ++ term ++ nl
    ++ base ++ " PATH $TREE_DIR/bin:$PATH" ++ nl
    ++ base ++ " PYTHONPATH $TREE_DIR/python:$PYTHONPATH").
  { intros term base. unfold strip, shell_header.
    rewrite (lstrip_by_app_cons isspace "#" " Set up tree/") by reflexivity.
    assert (Hend : rstrip_by isspace (" PYTHONPATH $TREE_DIR/python:$PYTHONPATH" ++ nl
                                      ++ "                ")
                   = " PYTHONPATH $TREE_DIR/python:$PYTHONPATH") by (vm_compute; reflexivity).
    repeat rewrite rstrip_by_app
      by repeat first [rewrite Hend; discriminate | apply rstrip_by_app_ne].
    by rewrite Hend. }
  assert (Hmod :
    strip (module_header (rstrip_slash tree_dir) (str name)) =
    "#%Module1.0" ++ nl
    ++ "proc ModulesHelp { } {" ++ nl
    ++ "    global product version" ++ nl
    ++ "    puts stderr " ++ dq
    ++ "This module adds $product/$version to various paths" ++ dq ++ nl
    ++ "}" ++ nl
    ++ "set name tree" ++ nl
    ++ "set product tree" ++ nl
    ++ "set version " ++ str name ++ nl
    ++ "conflict $product" ++ nl
    ++ "module-whatis " ++ dq
    ++ "Sets up $product/$version in your environment" ++ dq ++ nl
    ++ nl
    ++ "set PRODUCT_DIR " ++ rstrip_slash tree_dir ++ nl
    ++ "setenv [string toupper $product]_DIR $PRODUCT_DIR" ++ nl
    ++ "setenv [string toupper $product]_VER $version" ++ nl
    ++ "prepend-path PATH $PRODUCT_DIR/bin" ++ nl
    ++ "prepend-path PYTHONPATH $PRODUCT_DIR/python").
  { unfold strip, module_header.
    rewrite (lstrip_by_app_cons isspace "#" "%Module1.0") by reflexivity.
    assert (Hend : rstrip_by isspace ("prepend-path PYTHONPATH $PRODUCT_DIR/python" ++ nl
                                      ++ nl ++ "                ")
                   = "prepend-path PYTHONPATH $PRODUCT_DIR/python") by (vm_compute; reflexivity).
    repeat rewrite rstrip_by_app
      by repeat first [rewrite Hend; discriminate | apply rstrip_by_app_ne].
    by rewrite Hend. }
  split; [|split].
  - transitivity (w, Ok (strip (shell_header (str name) "bash" "export"
                                  (rstrip_slash tree_dir)))); [reflexivity|].
    rewrite Hshell. reflexivity.
  - transitivity (w, Ok (strip (shell_header (str name) "tsch" "setenv"
                                  (rstrip_slash tree_dir)))); [reflexivity|].
    rewrite Hshell. reflexivity.
  - transitivity (w, Ok (strip (module_header (rstrip_slash tree_dir) (str name))));
      [reflexivity|].
    rewrite Hmod. reflexivity.
Qed.

(** X12: a slash at the end of [tree_dir] makes no difference to the
    header. *)
Theorem write_header_trailing_slash term tree_dir name w :
  write_header term (tree_dir ++ "/") name w = write_header term tree_dir name w.
Proof.
  unfold write_header, rstrip_slash. by rewrite rstrip_by_snoc.
Qed.

Lemma setenv_body_body term env : term <> "bash" -> body term env = setenv_body env.
Proof.
  intros Hne%String.eqb_neq. unfold body, setenv_body, cmd. by rewrite Hne.
Qed.

(** X13: in the dialects [tsch] and [modules], [write_file] writes
    [<name>.csh] and [<name>.module]: the header, a line end, then for every
    section but [default] the comment that names it and one line
    [setenv <NAME_UPPER> <path>] for each variable.  The file read back
    holds that text, neither it nor [.version] being a symbolic link. *)
Theorem setenv_file_text (env : environ) term out_dir tree_dir w w' d nm ext :
  getitem env "default" = Some d ->
  getitem d "name" = Some (VStr nm) ->
  getitem exts term = Some ext ->
  term <> "bash" ->
  islink (fs w) (join out_dir (nm ++ ext)) = false ->
  islink (fs w) (join out_dir ".version") = false ->
  write_file env term out_dir tree_dir w = (w', Ok tt) ->
  (term = "tsch" /\ ext = ".csh" \/ term = "modules" /\ ext = ".module")
  /\ read (fs w') (join out_dir (nm ++ ext))
     = Some (header_text term tree_dir nm ++ nl ++ setenv_body env)
  /\ (forall section vars name path,
        In (section, vars) env -> section <> "default" -> In (name, path) vars ->
        exists pre post,
          setenv_body env = pre ++ ("setenv " ++ upper name ++ " " ++ str path ++ nl) ++ post).
Proof.
  intros Hd Hn He Hterm Hl Hlv Hrun. split; [|split].
  - unfold exts in He. cbn [getitem] in He.
    rewrite (String.eqb_sym "bash"), (String.eqb_sym "tsch"), (String.eqb_sym "modules") in He.
    destruct (String.eqb term "bash") eqn:E1; [by apply String.eqb_eq in E1|].
    destruct (String.eqb term "tsch") eqn:E2; [apply String.eqb_eq in E2; left; by simplify_eq|].
    destruct (String.eqb term "modules") eqn:E3; [|done].
    apply String.eqb_eq in E3; right; by simplify_eq.
  - rewrite (write_file_spec env term out_dir tree_dir w d nm ext Hd Hn He) in Hrun.
    rewrite (setenv_body_body term env Hterm) in Hrun.
    set (filename := join out_dir (nm ++ ext)) in *.
    set (text := header_text term tree_dir nm ++ nl ++ setenv_body env) in *.
    destruct (write_target (fs w) filename) as [q|e] eqn:Hq; [|done].
    cbv zeta in Hrun.
    assert (Hread : read (fs (put q text w)) filename = Some text) by by apply read_put.
    pose proof (write_target_not_link _ _ _ Hl Hq) as ->.
    destruct (String.eqb term "modules"); [|by injection Hrun as <-].
    destruct (getitem d "current") as [c|]; [|done].
    destruct (truthy c); [|by injection Hrun as <-].
    destruct (write_target _ (join out_dir ".version")) as [qv|e] eqn:Hv; [|done].
    injection Hrun as <-.
    assert (Hne : join out_dir ".version" <> filename).
    { intros Heq. by apply (filename_not_version term ext out_dir nm He). }
    apply write_target_not_link in Hv as ->.
    2:{ unfold islink in *. by rewrite put_lookup_ne. }
    unfold read. erewrite resolve_File; [done|].
    rewrite put_lookup_ne by done. unfold put. by rewrite fs_set_fs, lookup_insert_eq.
  - intros section vars name path Hs Hne Hv. apply join_rows_in.
    apply in_flat_map. exists (section, vars). split.
    + apply filter_In. split; [done|]. cbn [fst]. by apply negb_true_iff, String.eqb_neq.
    + right. cbn [snd].
      apply (in_map (fun nv : string * value =>
                       "setenv " ++ upper (fst nv) ++ " " ++ str (snd nv) ++ nl) _ _ Hv).
Qed.





(** ** Installing the module files *)

Lemma split_colon_cons s : exists x xs, split_colon s = x :: xs.
Proof.
  induction s as [|c s (x & xs & IH)]; cbn [split_colon]; [eauto|].
  destruct (Ascii.eqb c ":"); [eauto|]. rewrite IH. eauto.
Qed.

Lemma hd_split_colon s : hd "" (split_colon s) = before_colon s.
Proof.
  induction s as [|c s IH]; [done|]. cbn [split_colon before_colon].
  destruct (Ascii.eqb c ":"); [done|].
  destruct (split_colon_cons s) as (x & xs & E). rewrite E in *. cbn [hd] in *. by subst.
Qed.

Lemma prefix_colon (s : string) :
  String.prefix ":" s = match s with String c _ => Ascii.eqb c ":" | EmptyString => false end.
Proof.
  destruct s as [|c s]; [done|]. cbn [String.prefix].
  destruct (ascii_dec ":" c) as [<-|Hne]; [by destruct s|].
  symmetry. apply Ascii.eqb_neq. congruence.
Qed.

Lemma length_split_colon s : (1 <? length (split_colon s))%nat = contains ":" s.
Proof.
  induction s as [|c s IH]; [done|]. cbn [split_colon contains]. rewrite prefix_colon.
  destruct (split_colon_cons s) as (x & xs & E). rewrite E in *.
  destruct (Ascii.eqb c ":"); [done|]. cbn [orb]. by rewrite <- IH.
Qed.

(** X17: without a modules path of its own, [copy_modules] takes the first
    entry of a non-empty [MODULEPATH], the text before the first colon, and
    does not prompt; it says so when [verbose] is set and there are several
    entries. *)
Theorem find_modules_path_from_env modules_path verbose w mp :
  given modules_path = false ->
  osenv w !! "MODULEPATH" = Some mp ->
  mp <> "" ->
  find_modules_path modules_path verbose w =
    (if contains ":" mp && verbose
     then say ("Multiple module paths found.  Using top one: " ++ before_colon mp) w
     else w,
     Ok (before_colon mp)).
Proof.
  intros Hg Henv Hmp.
  assert (H : (modulepath <- getenv "MODULEPATH";;
      match modulepath with
      | Some (String c mp) =>
          let split_mods := split_colon (String c mp) in
          when ((1 <? length split_mods)%nat && verbose)
            (print ("Multiple module paths found.  Using top one: " ++ hd "" split_mods));;
          ret (hd "" split_mods)
      | _ => input "Enter the root path for your module files:"
      end)%py w
     = (if contains ":" mp && verbose
        then say ("Multiple module paths found.  Using top one: " ++ before_colon mp) w
        else w,
        Ok (before_colon mp))).
  { unfold bind at 1. unfold getenv. rewrite Henv. destruct mp as [|c mp]; [done|].
    cbv zeta. rewrite length_split_colon, hd_split_colon.
    unfold bind, when. destruct (contains ":" (String c mp) && verbose); [|done].
    by rewrite print_say. }
  unfold find_modules_path. by destruct modules_path as [[|c p]|].
Qed.

(** X18: when [<modules path>/tree] is taken by something that is no
    directory, [copy_modules] raises [FileExistsError] and copies nothing. *)
Theorem tree_name_taken filespath modules_path verbose w w0 mp nd :
  find_modules_path modules_path verbose w = (w0, Ok mp) ->
  fs w !! join mp "tree" = Some nd ->
  isdir (fs w) (join mp "tree") = false ->
  copy_modules filespath modules_path verbose w = (w0, Raise (OSError EEXIST)).
Proof.
  intros Hfind Hnd Hdir. unfold copy_modules. unfold bind at 1. rewrite Hfind.
  apply find_modules_path_fs in Hfind.
  unfold bind at 1. unfold os_path_isdir, gets. rewrite Hfind, Hdir. cbn [negb].
  unfold bind at 1. unfold when, os_makedirs. by rewrite Hfind, Hnd.
Qed.





Lemma for_each_Ok_In {A} (f : unit -> A -> M unit) (L : list A) :
  (forall a, preserves stays (f tt a)) ->
  forall w w', for_each f tt L w = (w', Ok tt) ->
  forall a, In a L ->
  exists wa wa', f tt a wa = (wa', Ok tt) /\ forall k, stays (fs w !! k) (fs wa !! k).
Proof.
  intros Hf. induction L as [|x L IH]; intros w w' Hrun a Hin; [done|].
  cbn [for_each] in Hrun. unfold bind in Hrun.
  destruct (f tt x w) as [w1 [[]|e]] eqn:Hx; [|done].
  destruct Hin as [->|Hin].
  - exists w, w1. split; [done|]. intros k. reflexivity.
  - destruct (IH _ _ Hrun _ Hin) as (wa & wa' & Ha & Hst). exists wa, wa'. split; [done|].
    intros k. etrans; [by eapply Hf|apply Hst].
Qed.

(** X20: [glob] does not tell files from directories: when a directory of
    the source directory is named [<base>.module], [copy_modules] does not
    run to its end. *)
Theorem directory_named_module_aborts filespath modules_path verbose w base m wr :
  base <> "" -> String.prefix "." base = false -> contains "/" base = false ->
  fs w !! join (fst (split (join filespath "*.module"))) (base ++ ".module")
  = Some (Dir m wr) ->
  snd (copy_modules filespath modules_path verbose w) <> Ok tt.
Proof.
  intros Hne Hdot Hs Hdir. set (mf := join _ (base ++ ".module")) in *.
  destruct (copy_modules filespath modules_path verbose w) as [w' r] eqn:Hrun.
  cbn [snd]. intros ->.
  unfold copy_modules in Hrun. unfold bind at 1 in Hrun.
  destruct (find_modules_path modules_path verbose w) as [w0 [mp|e]] eqn:Hfind; [|done].
  apply find_modules_path_fs in Hfind.
  set (tree_mod := join mp "tree") in *.
  unfold bind at 1 in Hrun. unfold os_path_isdir, gets at 1 in Hrun.
  unfold bind at 1 in Hrun.
  destruct (when (negb (isdir (fs w0) tree_mod)) (os_makedirs tree_mod) w0)
    as [w1 [[]|e]] eqn:Hmk; [|done].
  assert (H1 : fs w1 !! mf = Some (Dir m wr)).
  { pose proof (preserves_when stays _ _ (os_makedirs_stays tree_mod) _ _ _ Hmk mf) as Hst.
    by rewrite Hfind, Hdir in Hst. }
  unfold bind at 1 in Hrun.
  destruct (when verbose _ w1) as [w2 r2] eqn:Hw2.
  assert (Hfs2 : fs w2 = fs w1 /\ r2 = Ok tt).
  { unfold when, print, ret in Hw2. destruct verbose; by injection Hw2 as <- <-. }
  destruct Hfs2 as [Hfs2 ->].
  unfold bind at 1 in Hrun. unfold gets at 1 in Hrun. rewrite Hfs2 in Hrun.
  unfold bind at 1 in Hrun.
  destruct (for_each (copy_module tree_mod) tt _ w2) as [w3 [[]|e]] eqn:Hloop; [|done].
  destruct (for_each_Ok_In _ _ (fun a => shutil_copy2_stays _ _) _ _ Hloop mf)
    as (wa & wa' & Ha & Hst).
  { apply glob_modules_In. exists base. by rewrite H1. }
  specialize (Hst mf). rewrite Hfs2, H1 in Hst. cbn in Hst.
  unfold copy_module, shutil_copy2 in Ha.
  rewrite (resolve_Dir _ _ _ _ _ Hst) in Ha.
  destruct (resolve MAXSYMLINKS (fs wa) _) as [q' ?| |]; try done.
  by destruct (String.eqb mf q').
Qed.

(** ** The env directory *)

Lemma access_exists σ p : access_w σ p = true -> exists_ σ p = true.
Proof.
  unfold access_w, exists_, stat. by destruct (resolve _ _ _) as [? [| |]| |].
Qed.

Lemma defaults_of_name d mirror : getitem (defaults_of d mirror) "name" = getitem d "name".
Proof. unfold defaults_of. by rewrite !getitem_setitem_ne. Qed.

Lemma defaults_of_url d mirror :
  getitem (defaults_of d mirror) "url"
  = Some (VStr (if mirror then "https://data.mirror.sdss.org" else "https://data.sdss.org")).
Proof. unfold defaults_of. by rewrite getitem_setitem_ne, getitem_setitem. Qed.

Lemma defaults_of_location d mirror :
  getitem (defaults_of d mirror) "location"
  = Some (VStr (if mirror then "SDSS-IV Science Archive Mirror (SAM)"
                else "SDSS-IV Science Archive Server (SAS)")).
Proof. unfold defaults_of. by rewrite getitem_setitem. Qed.

Section EnvFacts.

Variable localtime : Z -> struct_time.


(** X6: when the env directory is there and may not be written to,
    [create_env] returns without an error, having made no link and written
    no index page; [Found <root>.] is printed when [verbose] is set, and
    nothing else is changed. *)
Theorem env_dir_not_writable (env : environ) mirror verbose w d g root :
  getitem env "default" = Some d ->
  getitem env "general" = Some g ->
  getitem g "sas_root" = Some (VStr root) ->
  exists_ (fs w) root = true ->
  exists_ (fs w) (join root "env") = true ->
  access_w (fs w) (join root "env") = false ->
  create_env localtime env mirror verbose w =
    (if verbose then say ("Found " ++ root ++ ".") w else w, Ok tt).
Proof.
  intros Hd Hg Hr He Hee Ha. rewrite (create_env_unfold localtime env mirror verbose w d g root)
    by done.
  rewrite He. cbn [negb]. unfold bind, when.
  destruct verbose; [rewrite print_say|unfold ret];
    rewrite dir_phase_run by done; by rewrite ?fs_say, Ha.
Qed.


(** X8: a configuration whose [default] section has no [name]: with the env
    directory writable, [create_env] raises [KeyError('name')] before the
    first link is made, so the file system is as it was. *)
Theorem missing_name_before_any_link (env : environ) mirror verbose w d g root :
  getitem env "default" = Some d ->
  getitem env "general" = Some g ->
  getitem g "sas_root" = Some (VStr root) ->
  getitem d "name" = None ->
  exists_ (fs w) root = true ->
  access_w (fs w) (join root "env") = true ->
  create_env localtime env mirror verbose w =
    (if verbose then say ("Found " ++ root ++ ".") w else w, Raise (KeyError "name")).
Proof.
  intros Hd Hg Hr Hn He Ha. rewrite (create_env_unfold localtime env mirror verbose w d g root)
    by done.
  rewrite He. cbn [negb]. unfold bind, when.
  destruct verbose; [rewrite print_say|unfold ret];
    rewrite dir_phase_run by (rewrite ?fs_say; by apply access_exists);
    rewrite ?fs_say, Ha; cbn [negb];
    unfold link_phase, create_index_page, bind, get;
    by rewrite defaults_of_url, defaults_of_name, Hn.
Qed.

(** X9: when [create_env] runs to its end with the env directory writable,
    [index.html] holds the page header, the table and the page footer, with
    the name of the configuration, and with the address and the title of
    the mirror (SAM) when [mirror] is set, of the server (SAS) otherwise. *)
Theorem index_page_written (env : environ) mirror verbose w w' d g root name :
  getitem env "default" = Some d ->
  getitem env "general" = Some g ->
  getitem g "sas_root" = Some (VStr root) ->
  getitem d "name" = Some name ->
  exists_ (fs w) root = true ->
  access_w (fs w) (join root "env") = true ->
  create_env localtime env mirror verbose w = (w', Ok tt) ->
  let envdir := join root "env" in
  let w0 := if verbose then say ("Found " ++ root ++ ".") w else w in
  read (fs w') (join envdir "index.html")
  = Some (index_page
            (if mirror then "https://data.mirror.sdss.org" else "https://data.sdss.org")
            (str name)
            (if mirror then "SDSS-IV Science Archive Mirror (SAM)"
             else "SDSS-IV Science Archive Server (SAS)")
            (join_rows (table_rows localtime envdir env w0))).
Proof.
  intros Hd Hg Hr Hn He Ha Hrun envdir w0.
  rewrite (create_env_unfold localtime env mirror verbose w d g root) in Hrun by done.
  rewrite He in Hrun. cbn [negb] in Hrun.
  assert (Hp : when verbose (print ("Found " ++ root ++ ".")) w = (w0, Ok tt)).
  { unfold when, w0. destruct verbose; [by rewrite print_say|done]. }
  assert (Hfs : fs w0 = fs w) by (unfold w0; by destruct verbose).
  unfold bind at 1 in Hrun. rewrite Hp in Hrun. fold envdir in Hrun, Ha.
  rewrite dir_phase_run in Hrun by (rewrite Hfs; by apply access_exists).
  rewrite Hfs, Ha in Hrun. cbn [negb] in Hrun.
  unfold link_phase, create_index_page, get in Hrun.
  rewrite defaults_of_url, defaults_of_name, defaults_of_location, Hn in Hrun.
  unfold bind at 1 in Hrun. unfold ret at 1 in Hrun.
  unfold bind at 1 in Hrun. unfold ret at 1 in Hrun.
  unfold bind at 1 in Hrun. unfold bind at 1 in Hrun.
  unfold create_index_table in Hrun. unfold bind at 1 in Hrun.
  rewrite for_each_section_rows in Hrun.
  destruct (for_each (index_section localtime envdir) "" env w0) as [wb [t0|e]];
    cbn [fst snd] in Hrun; [|done].
  unfold ret at 1 in Hrun. unfold bind at 1 in Hrun. unfold ret at 1 in Hrun.
  unfold bind at 1 in Hrun. unfold ret at 1 in Hrun. unfold bind in Hrun.
  destruct (write_target (fs wb) (join envdir "index.html")) as [q|e] eqn:Hq.
  2:{ by rewrite (open_w_raise _ _ _ Hq) in Hrun. }
  rewrite (open_w_put _ _ _ Hq), f_write_put in Hrun. injection Hrun as <-.
  rewrite (read_put _ _ _ _ Hq). f_equal. cbn [str]. unfold index_page.
  change ("" ++ ?x) with x. by rewrite !append_assoc.
Qed.

End EnvFacts.

(** ** Where the links go *)

Lemma in_list_false x l : in_list x l = false <-> ~ In x l.
Proof.
  rewrite <- in_list_In. destruct (in_list x l); split; done.
Qed.

Section LinkFacts.

Variable localtime : Z -> struct_time.

Lemma index_variable_frame envdir section table name path w k :
  (contains "_root" name = false -> k <> link_path envdir name) ->
  fs (fst (index_variable localtime envdir section table (name, path) w)) !! k = fs w !! k.
Proof.
  intros Hk. destruct (contains "_root" name) eqn:Hr.
  { by rewrite index_variable_root. }
  specialize (Hk eq_refl). destruct path as [p|b].
  2:{ unfold index_variable. by rewrite Hr. }
  destruct (stat (fs w) p) as [m|e] eqn:Hs.
  - rewrite (index_variable_reachable localtime envdir section table name p w m Hr Hs).
    cbv zeta. destruct (_ && contains "sas_base_dir" name); [done|].
    destruct (blocked (fs w) (link_path envdir name));
      destruct (_ && in_list name _); cbn [fst]; rewrite ?fs_set_fs, ?fs_say;
      by rewrite ?lookup_insert_ne.
  - rewrite (index_variable_unreachable localtime envdir section table name p w e Hr Hs).
    cbn [fst]. rewrite fs_set_fs, ?fs_say. by apply remove_link_lookup_ne.
Qed.

Lemma index_section_frame envdir section items k : forall table w,
  (forall nv, In nv items -> contains "_root" (fst nv) = false ->
              k <> link_path envdir (fst nv)) ->
  fs (fst (for_each (index_variable localtime envdir section) table items w)) !! k
  = fs w !! k.
Proof.
  induction items as [|[name path] items IH]; intros table w Hk; [done|].
  cbn [for_each]. unfold bind.
  pose proof (index_variable_frame envdir section table name path w k
                (Hk (name, path) (or_introl eq_refl))) as H1.
  destruct (index_variable localtime envdir section table (name, path) w) as [w1 [t1|e]];
    cbn [fst] in *; [|done].
  rewrite IH; [done|]. intros nv Hin. apply Hk. by right.
Qed.

Lemma index_table_frame envdir (env : environ) k : forall table w,
  in_list k (all_links envdir (drop_root env)) = false ->
  fs (fst (for_each (index_section localtime envdir) table env w)) !! k = fs w !! k.
Proof.
  induction env as [|[section items] env IH]; intros table w Hk; [done|].
  apply in_list_false in Hk. cbn [for_each]. unfold bind.
  assert (H1 : fs (fst (index_section localtime envdir table (section, items) w)) !! k
               = fs w !! k).
  { unfold index_section. destruct (String.eqb section "default") eqn:E; [done|].
    apply index_section_frame. intros nv Hin Hr ->. apply Hk.
    unfold all_links, drop_root. cbn [List.map flat_map fst snd]. rewrite E.
    apply in_or_app. left.
    apply (in_map (fun nv : string * value => link_path envdir (fst nv))).
    apply filter_In. split; [done|]. by rewrite Hr. }
  destruct (index_section localtime envdir table (section, items) w) as [w1 [t1|e]];
    cbn [fst] in *; [|done].
  rewrite IH; [done|]. apply in_list_false. intros Hin. apply Hk.
  unfold all_links, drop_root. cbn [List.map flat_map]. apply in_or_app. by right.
Qed.

Lemma all_links_drop_root envdir (env : environ) k :
  In k (all_links envdir (drop_root env)) <->
  exists section values name path,
    In (section, values) env /\ section <> "default" /\ In (name, path) values
    /\ contains "_root" name = false /\ k = link_path envdir name.
Proof.
  unfold all_links, drop_root. rewrite in_flat_map. split.
  - intros ([section items] & ([s v] & [= <- <-] & Hin)%in_map_iff & Hk).
    cbn [fst snd] in *. destruct (String.eqb s "default") eqn:E; [done|].
    apply in_map_iff in Hk as ([name path] & <- & [Hv Hr]%filter_In).
    cbn [fst] in *. exists s, v, name, path.
    repeat split; try done; [by apply String.eqb_neq|by apply negb_true_iff].
  - intros (section & values & name & path & Hin & Hne & Hv & Hr & ->).
    eexists (section, _). split.
    + apply in_map_iff. by exists (section, values).
    + cbn [fst snd]. apply String.eqb_neq in Hne as ->.
      apply (in_map (fun nv : string * value => link_path envdir (fst nv)) _ (name, path)).
      apply filter_In. split; [done|]. cbn [fst]. by rewrite Hr.
Qed.

Lemma create_index_table_frame (env : environ) envdir w k :
  in_list k (all_links envdir env) = false ->
  fs (fst (create_index_table localtime env envdir w)) !! k = fs w !! k.
Proof.
  intros Hk. unfold create_index_table, bind.
  assert (Hk' : in_list k (all_links envdir (drop_root env)) = false).
  { apply in_list_false. apply in_list_false in Hk. intros Hin. apply Hk.
    apply all_links_drop_root in Hin as (section & values & name & path & ? & Hne & ? & _ & ->).
    unfold all_links. apply in_flat_map. exists (section, values). split; [done|].
    cbn [fst snd]. apply String.eqb_neq in Hne as ->.
    by apply (in_map (fun nv : string * value => link_path envdir (fst nv)) _ (name, path)). }
  pose proof (index_table_frame envdir env k table_header w Hk') as H.
  by destruct (for_each _ _ env w) as [w1 [t|e]].
Qed.

(** X2: the only entries [create_index_table] changes are the links
    [<envdir>/<NAME_UPPER>] of the variables of the sections other than
    [default] whose name has no [_root] in it. *)
Theorem links_stand_under_their_names (env : environ) envdir w k :
  fs (fst (create_index_table localtime env envdir w)) !! k <> fs w !! k ->
  exists section values name path,
    In (section, values) env /\ section <> "default" /\ In (name, path) values
    /\ contains "_root" name = false /\ k = join envdir (upper name).
Proof.
  intros Hk. apply all_links_drop_root. apply in_list_In.
  destruct (in_list k (all_links envdir (drop_root env))) eqn:E; [done|].
  exfalso. apply Hk. unfold create_index_table, bind.
  pose proof (index_table_frame envdir env k table_header w E) as H.
  by destruct (for_each _ _ env w) as [w1 [t|e]].
Qed.

Lemma create_index_page_frame (env : environ) defaults envdir w k :
  in_list k (all_links envdir env) = false ->
  fs (fst (create_index_page localtime env defaults envdir w)) !! k = fs w !! k.
Proof.
  intros Hk. unfold create_index_page, get.
  destruct (getitem defaults "url") as [u|]; [|done].
  unfold bind at 1. unfold ret at 1.
  destruct (getitem defaults "name") as [n|]; [|done].
  unfold bind at 1. unfold ret at 1. unfold bind at 1.
  pose proof (create_index_table_frame env envdir w k Hk) as H.
  destruct (create_index_table localtime env envdir w) as [w1 [t|e]]; cbn [fst] in *; [|done].
  by destruct (getitem defaults "location").
Qed.

Lemma index_not_envdir root : join (join root "env") "index.html" <> join root "env".
Proof. by apply join_longer. Qed.

Lemma link_phase_frame (env : environ) defaults root w k :
  let envdir := join root "env" in
  islink (fs w) (join envdir "index.html") = false ->
  in_list k (all_links envdir env) = false ->
  k <> join envdir "index.html" ->
  fs (fst (link_phase localtime env defaults envdir w)) !! k = fs w !! k.
Proof.
  intros envdir Hl Hk Hne. unfold link_phase. unfold bind at 1.
  pose proof (create_index_page_frame env defaults envdir w k Hk) as H1.
  assert (H2 : islink (fs (fst (create_index_page localtime env defaults envdir w)))
                 (join envdir "index.html") = false).
  { unfold islink in *. rewrite create_index_page_frame; [done|].
    apply in_list_false. intros [name Hn]%all_links_In.
    symmetry in Hn. by apply link_not_index in Hn. }
  destruct (create_index_page localtime env defaults envdir w) as [wb [index|e]];
    cbn [fst] in *; [|done].
  unfold bind.
  destruct (write_target (fs wb) (join envdir "index.html")) as [q|e] eqn:Hq.
  - rewrite (open_w_put _ _ _ Hq), f_write_put. cbn [fst].
    apply write_target_not_link in Hq as ->; [|done].
    by rewrite put_lookup_ne.
  - by rewrite (open_w_raise _ _ _ Hq).
Qed.

(** X4: when [index.html] of the env directory is no symbolic link,
    [create_env] changes nothing outside the env directory: only the
    directory itself, its [index.html] and the links of the variables. *)
Theorem create_env_writes_under_env (env : environ) mirror verbose w d g root k :
  getitem env "default" = Some d ->
  getitem env "general" = Some g ->
  getitem g "sas_root" = Some (VStr root) ->
  islink (fs w) (join (join root "env") "index.html") = false ->
  in_list k (managed (join root "env") env) = false ->
  fs (fst (create_env localtime env mirror verbose w)) !! k = fs w !! k.
Proof.
  intros Hd Hg Hr Hl Hk.
  rewrite (create_env_unfold localtime env mirror verbose w d g root) by done.
  set (envdir := join root "env") in *.
  unfold managed, in_list in Hk. cbn [existsb] in Hk.
  apply orb_false_iff in Hk as [Hk1 [Hk2 Hk3]%orb_false_iff].
  apply String.eqb_neq in Hk1, Hk2. fold (in_list k (all_links envdir env)) in Hk3.
  destruct (exists_ (fs w) root); cbn [negb].
  2:{ unfold when, print, ret. by destruct verbose. }
  set (w0 := if verbose then say ("Found " ++ root ++ ".") w else w).
  assert (Hp : when verbose (print ("Found " ++ root ++ ".")) w = (w0, Ok tt)).
  { unfold when, w0. destruct verbose; [by rewrite print_say|done]. }
  assert (Hfs : fs w0 = fs w) by (unfold w0; by destruct verbose).
  unfold bind at 1. rewrite Hp. rewrite <- Hfs in *. clear Hp. clearbody w0.
  unfold dir_phase. unfold bind at 1. unfold os_path_exists, gets.
  unfold bind at 1.
  assert (Hmk : forall w1 r, when (negb (exists_ (fs w0) envdir)) (os_makedirs envdir) w0
                             = (w1, r) ->
            fs w1 !! k = fs w0 !! k
            /\ islink (fs w1) (join envdir "index.html") = false).
  { intros w1 r. unfold when, os_makedirs, ret.
    destruct (negb _); [|by intros [= <- _]].
    destruct (fs w0 !! envdir); intros [= <- _]; [done|].
    rewrite fs_set_fs. unfold islink.
    rewrite !lookup_insert_ne; [done|by apply not_eq_sym, index_not_envdir|done]. }
  destruct (when _ _ w0) as [w1 [[]|e]] eqn:E; destruct (Hmk _ _ eq_refl) as [H1 H2];
    [|exact H1].
  unfold bind. unfold os_access_w, gets.
  destruct (negb (access_w (fs w1) envdir)); [done|].
  rewrite <- H1. by apply link_phase_frame.
Qed.

End LinkFacts.

(** X5: [make_symlink] over a link it made before: the link made last is the
    one that stays, and the outcome is that of the later call alone. *)
Theorem make_symlink_last_wins src src' link w w1 :
  make_symlink src link w = (w1, Ok tt) ->
  make_symlink src' link w1 = make_symlink src' link w.
Proof.
  rewrite !make_symlink_spec. unfold blocked.
  destruct (fs w !! link) as [[| |]|] eqn:E; intros [= <-]; rewrite fs_set_fs;
    rewrite lookup_insert_eq; by rewrite insert_insert_eq, set_fs_set_fs.
Qed.

(** ** The driver *)

(** X23: when [check_sas_base_dir] has returned, [SAS_BASE_DIR] is set in
    the environment; it fails only with [EOFError], when neither the
    argument nor the environment gives a non-empty value and there is no
    line to read. *)
Theorem check_sas_base_dir_outcome root w :
  match snd (check_sas_base_dir root w) with
  | Ok _ => is_Some (osenv (fst (check_sas_base_dir root w)) !! "SAS_BASE_DIR")
  | Raise e =>
      e = EOFError /\ given root = false
      /\ given (osenv w !! "SAS_BASE_DIR") = false /\ stdin w = []
  end.
Proof.
  unfold check_sas_base_dir, bind, getenv, ret, input, os_environ_set.
  destruct root as [[|c s]|]; cbn [given];
    try (destruct (osenv w !! "SAS_BASE_DIR") as [[|c' s']|] eqn:E; cbn [given];
         try destruct (stdin w));
    cbn [fst snd osenv]; rewrite ?lookup_insert_eq; eauto.
Qed.

(** X24: with a non-empty [SAS_BASE_DIR] in the environment,
    [check_sas_base_dir()] neither prompts nor changes anything. *)
Theorem check_sas_base_dir_settled w :
  given (osenv w !! "SAS_BASE_DIR") = true ->
  check_sas_base_dir None w = (w, Ok tt).
Proof.
  intros Hg. unfold check_sas_base_dir. cbn [given].
  unfold bind, getenv, ret, os_environ_set.
  destruct (osenv w !! "SAS_BASE_DIR") as [[|c s]|] eqn:E; try done.
  rewrite insert_id by done. by destruct w.
Qed.

(** ** Writing the module file and installing it *)

Lemma rstrip_slash_id (d : string) : endswith d "/" = false -> rstrip_slash d = d.
Proof.
  unfold rstrip_slash. induction d as [|c d IH]; [done|]. cbn [endswith rstrip_by].
  intros [Hc Hd]%orb_false_iff. rewrite (IH Hd). destruct d as [|c' d]; [|done].
  destruct (Ascii.eqb c "/") eqn:E; [|done]. apply Ascii.eqb_eq in E as ->. done.
Qed.

(** The directory [glob] lists for a directory name without a slash at its
    end. *)
Lemma glob_dir (d : string) :
  d <> "" -> endswith d "/" = false -> fst (split (join d "*.module")) = d.
Proof.
  intros Hne He. apply String.eqb_neq in Hne as Hne'.
  assert (Hj : join d "*.module" = (d ++ "/") ++ "*.module").
  { unfold join. change (startswith_slash "*.module") with false.
    rewrite Hne', He. cbn [orb]. by rewrite append_assoc. }
  rewrite Hj. unfold split. cbn [fst].
  rewrite rfind_app. change (rfind "/" "*.module") with (-1). cbn [Z.leb Z.compare].
  rewrite endswith_slash_rfind by (apply endswith_app; by exists d).
  replace (Z.of_nat (String.length (d ++ "/")) - 1 + 1)
    with (Z.of_nat (String.length (d ++ "/"))) by lia.
  rewrite take_app. unfold all_slashes, rstrip_slash. rewrite rstrip_by_snoc by done.
  fold (rstrip_slash d). rewrite (rstrip_slash_id d He). by rewrite Hne'.
Qed.

(** The start of [copy_modules]: the directory [tree] is there afterwards. *)
Lemma copy_modules_head filespath modules_path verbose w w0 w' mp :
  find_modules_path modules_path verbose w = (w0, Ok mp) ->
  copy_modules filespath modules_path verbose w = (w', Ok tt) ->
  let tree_mod := join mp "tree" in
  exists w1,
    isdir (fs w1) tree_mod = true
    /\ (forall k, k <> tree_mod -> fs w1 !! k = fs w !! k)
    /\ (forall k, is_Some (fs w !! k) -> fs w1 !! k = fs w !! k)
    /\ (when verbose (print ("Copying modules from etc/ into " ++ tree_mod));;
        module_files <- gets (fun σ => glob_modules σ filespath);;
        for_each (copy_module tree_mod) tt module_files;;
        let version := join filespath ".version" in
        v <- os_path_isfile version;;
        when v (shutil_copy2 version tree_mod))%py w1 = (w', Ok tt).
Proof.
  intros Hfind Hrun tree_mod.
  unfold copy_modules in Hrun. unfold bind at 1 in Hrun. rewrite Hfind in Hrun.
  apply find_modules_path_fs in Hfind.
  fold tree_mod in Hrun. unfold bind at 1 in Hrun. unfold os_path_isdir, gets at 1 in Hrun.
  unfold bind at 1 in Hrun.
  destruct (when (negb (isdir (fs w0) tree_mod)) (os_makedirs tree_mod) w0)
    as [w1 [[]|e]] eqn:Hmk; [|done].
  exists w1. split; [|split; [|split]]; [| | |exact Hrun];
    unfold when, ret in Hmk; rewrite Hfind in *;
    (destruct (isdir (fs w) tree_mod) eqn:Hd; cbn [negb] in Hmk;
     [ injection Hmk as <-; by rewrite ?Hfind
     | unfold os_makedirs in Hmk; rewrite Hfind in Hmk;
       destruct (fs w !! tree_mod) eqn:Ht; [done|];
       injection Hmk as <-; rewrite fs_set_fs ]).
  - unfold isdir, MAXSYMLINKS. cbn [resolve]. by rewrite lookup_insert_eq.
  - intros k Hk. by rewrite lookup_insert_ne.
  - intros k [nd Hk]. rewrite lookup_insert_ne; [done|]. congruence.
Qed.

(** X22: [write_file] in the dialect [modules] followed by [copy_modules] on
    the same directory: the file installed as [tree/<name>] holds the text
    just written, and [tree/.version] the two lines of [write_version] when
    [current] is set. *)
Theorem written_module_is_installed (env : environ) etcdir tree_dir modules_path verbose
    w w1 w0 w' d nm mp :
  getitem env "default" = Some d ->
  getitem d "name" = Some (VStr nm) ->
  nm <> "" -> String.prefix "." nm = false -> contains "/" nm = false ->
  etcdir <> "" -> endswith etcdir "/" = false ->
  islink (fs w) (join etcdir (nm ++ ".module")) = false ->
  islink (fs w) (join etcdir ".version") = false ->
  write_file env "modules" etcdir tree_dir w = (w1, Ok tt) ->
  find_modules_path modules_path verbose w1 = (w0, Ok mp) ->
  copy_modules etcdir modules_path verbose w1 = (w', Ok tt) ->
  let tree_mod := join mp "tree" in
  (forall name, name <> "" -> contains "/" name = false ->
                is_plain (fs w !! join tree_mod name) = true) ->
  (forall name, contains "/" name = false ->
                join etcdir (nm ++ ".module") <> join tree_mod name
                /\ join etcdir ".version" <> join tree_mod name) ->
  fs w' !! join tree_mod nm
  = Some (File (header_text "modules" tree_dir nm ++ nl ++ setenv_body env) (clock w))
  /\ (forall c, getitem d "current" = Some c -> truthy c = true ->
        fs w' !! join tree_mod ".version"
        = Some (File ("#%Module1.0" ++ nl ++ "set ModulesVersion " ++ nm) (clock w))).
Proof.
  intros Hd Hn Hne Hdot Hs Hetc Hend Hl Hlv Hwrite Hfind Hcopy tree_mod Hplain Halias.
  set (filename := join etcdir (nm ++ ".module")) in *.
  set (version := join etcdir ".version") in *.
  set (text := header_text "modules" tree_dir nm ++ nl ++ setenv_body env).
  assert (Hfv : version <> filename).
  { intros Heq. by apply (filename_not_version "modules" ".module" etcdir nm eq_refl). }
  (* what [write_file] left *)
  rewrite (write_file_spec env "modules" etcdir tree_dir w d nm ".module" Hd Hn eq_refl)
    in Hwrite.
  rewrite setenv_body_body in Hwrite by done. fold filename text in Hwrite.
  destruct (write_target (fs w) filename) as [q|e] eqn:Hq; [|done].
  apply write_target_not_link in Hq as ->; [|done].
  cbv zeta in Hwrite. change (String.eqb "modules" "modules") with true in Hwrite.
  cbv iota in Hwrite. fold version in Hwrite.
  assert (Hw1 : fs w1 !! filename = Some (File text (clock w))
                /\ (forall c, getitem d "current" = Some c -> truthy c = true ->
                      fs w1 !! version = Some (File (write_version (VStr nm)) (clock w)))
                /\ (forall k, k <> filename -> k <> version -> fs w1 !! k = fs w !! k)).
  { destruct (getitem d "current") as [c|]; [|done].
    destruct (truthy c) eqn:Hc.
    - destruct (write_target _ version) as [qv|e] eqn:Hv; [|done].
      apply write_target_not_link in Hv as ->.
      2:{ unfold islink in *. by rewrite put_lookup_ne. }
      injection Hwrite as <-. split; [|split].
      + rewrite put_lookup_ne by done. unfold put. by rewrite fs_set_fs, lookup_insert_eq.
      + intros _ _ _. unfold put at 1. by rewrite fs_set_fs, lookup_insert_eq.
      + intros k Hk1 Hk2. by rewrite !put_lookup_ne.
    - injection Hwrite as <-. split; [|split].
      + unfold put. by rewrite fs_set_fs, lookup_insert_eq.
      + intros c' [= <-] Ht. by rewrite Hc in Ht.
      + intros k Hk1 Hk2. by rewrite put_lookup_ne. }
  destruct Hw1 as (Hfile & Hver & Hrest).
  (* the copies *)
  destruct (copy_modules_head etcdir modules_path verbose w1 w0 w' mp Hfind Hcopy)
    as (w2 & Hdir & Hsame & Hkeep & Htail).
  fold tree_mod in Hdir, Hsame, Htail.
  apply copy_modules_tail in Htail as [Hmod Hcopied]; [|done|].
  2:{ intros name Hn' Hs'. rewrite Hsame by (apply join_longer; [done|by apply no_slash_start]).
      destruct (Halias name Hs') as [Ha1 Ha2].
      rewrite Hrest by (by apply not_eq_sym). by apply Hplain. }
  rewrite (glob_dir etcdir Hetc Hend) in Hmod. split.
  - apply (Hmod nm text (clock w)); try done.
    + fold filename. rewrite Hkeep; [exact Hfile|]. by rewrite Hfile.
    + intros name Hs'. by apply Halias.
  - intros c Hc Ht. apply Hcopied.
    + fold version. rewrite Hkeep; [by apply (Hver c)|]. by rewrite (Hver c).
    + intros name Hs'. by apply Halias.
Qed.

Section DriverSafety.

Variable localtime : Z -> struct_time.
Variable get_tree : string -> M environ.

(** X25: if the loader of the configurations leaves the file system alone,
    [main] deletes no file and no directory, in either mode and whatever
    its outcome. *)
Theorem main_never_deletes opts w k :
  (forall cfgfile w, fs (fst (get_tree cfgfile w)) = fs w) ->
  kept (fs w !! k) (fs (fst (main localtime get_tree opts w)) !! k).
Proof.
  intros Hload.
  destruct (main localtime get_tree opts w) as [w' r] eqn:E.
  apply (main_kept localtime get_tree opts) with (w := w) (w' := w') (r := r); [|done].
  intros cfgfile. apply preserves_same; [exact _|].
  intros w1 w2 r2 H. specialize (Hload cfgfile w1). by rewrite H in Hload.
Qed.

End DriverSafety.

(** * The further properties at sample inputs *)

(** X2 at a sample input. *)
Lemma links_stand_under_their_names_witness :
  fs (fst (create_index_table gmtime sample_env "/sas/env" sample_world)) !! "/sas/env/SPECTRO"
  <> fs sample_world !! "/sas/env/SPECTRO"
  /\ exists section values name path,
       In (section, values) sample_env /\ section <> "default" /\ In (name, path) values
       /\ contains "_root" name = false /\ "/sas/env/SPECTRO" = join "/sas/env" (upper name).
Proof.
  assert (H : fs (fst (create_index_table gmtime sample_env "/sas/env" sample_world))
                !! "/sas/env/SPECTRO" <> fs sample_world !! "/sas/env/SPECTRO")
    by (vm_compute; discriminate).
  split; [exact H|].
  apply (links_stand_under_their_names gmtime sample_env "/sas/env" sample_world
           "/sas/env/SPECTRO" H).
Defined.

(** X4 at a sample input. *)
Lemma create_env_writes_under_env_witness :
  islink (fs sample_world) (join (join "/sas" "env") "index.html") = false
  /\ in_list "/data/cas" (managed (join "/sas" "env") sample_env) = false
  /\ fs (fst (create_env gmtime sample_env false false sample_world)) !! "/data/cas"
     = fs sample_world !! "/data/cas".
Proof.
  split; [vm_compute; reflexivity|]. split; [vm_compute; reflexivity|].
  apply (create_env_writes_under_env gmtime sample_env false false sample_world _ _ "/sas"
           "/data/cas" eq_refl eq_refl eq_refl); vm_compute; reflexivity.
Defined.

(** X5 at a sample input. *)
Lemma make_symlink_last_wins_witness :
  make_symlink "/data/late" "/sas/env/LATE" sample_world
  = (fst (make_symlink "/data/late" "/sas/env/LATE" sample_world), Ok tt)
  /\ make_symlink "/data/spectro" "/sas/env/LATE"
       (fst (make_symlink "/data/late" "/sas/env/LATE" sample_world))
     = make_symlink "/data/spectro" "/sas/env/LATE" sample_world.
Proof.
  assert (H : make_symlink "/data/late" "/sas/env/LATE" sample_world
              = (fst (make_symlink "/data/late" "/sas/env/LATE" sample_world), Ok tt))
    by (vm_compute; reflexivity).
  split; [exact H|].
  apply (make_symlink_last_wins "/data/late" "/data/spectro" "/sas/env/LATE" sample_world _ H).
Defined.

(** X6 at a sample input. *)
Lemma env_dir_not_writable_witness :
  exists_ (fs readonly_world) "/sas" = true
  /\ exists_ (fs readonly_world) (join "/sas" "env") = true
  /\ access_w (fs readonly_world) (join "/sas" "env") = false
  /\ create_env gmtime newer_env false true readonly_world
     = (say ("Found " ++ "/sas" ++ ".") readonly_world, Ok tt).
Proof.
  split; [vm_compute; reflexivity|]. split; [vm_compute; reflexivity|].
  split; [vm_compute; reflexivity|].
  apply (env_dir_not_writable gmtime newer_env false true readonly_world _ _ "/sas"
           eq_refl eq_refl eq_refl); vm_compute; reflexivity.
Defined.


(** X8 at a sample input. *)
Lemma missing_name_before_any_link_witness :
  getitem (V := value) [("current", VBool true)] "name" = None
  /\ exists_ (fs sample_world) "/sas" = true
  /\ access_w (fs sample_world) (join "/sas" "env") = true
  /\ create_env gmtime nameless_env false false sample_world
     = (sample_world, Raise (KeyError "name")).
Proof.
  split; [reflexivity|]. split; [vm_compute; reflexivity|]. split; [vm_compute; reflexivity|].
  apply (missing_name_before_any_link gmtime nameless_env false false sample_world _ _ "/sas"
           eq_refl eq_refl eq_refl eq_refl); vm_compute; reflexivity.
Defined.

(** X9 at a sample input. *)
Lemma index_page_written_witness :
  exists_ (fs sample_world) "/sas" = true
  /\ access_w (fs sample_world) (join "/sas" "env") = true
  /\ create_env gmtime newer_env true false sample_world
     = (fst (create_env gmtime newer_env true false sample_world), Ok tt)
  /\ read (fs (fst (create_env gmtime newer_env true false sample_world)))
       (join (join "/sas" "env") "index.html")
     = Some (index_page "https://data.mirror.sdss.org" "v1"
               "SDSS-IV Science Archive Mirror (SAM)"
               (join_rows (table_rows gmtime (join "/sas" "env") newer_env sample_world))).
Proof.
  assert (H : create_env gmtime newer_env true false sample_world
     = (fst (create_env gmtime newer_env true false sample_world), Ok tt))
    by (vm_compute; reflexivity).
  split; [vm_compute; reflexivity|]. split; [vm_compute; reflexivity|]. split; [exact H|].
  apply (index_page_written gmtime newer_env true false sample_world _ _ _ "/sas" (VStr "v1")
           eq_refl eq_refl eq_refl eq_refl ltac:(vm_compute; reflexivity)
           ltac:(vm_compute; reflexivity) H).
Defined.

(** X10 at a sample input. *)
Lemma write_file_unknown_dialect_witness :
  in_list "zsh" ["bash"; "tsch"; "modules"] = false
  /\ write_file sample_env "zsh" "/t/etc" "/t" etc_world = (etc_world, Raise AssertionError).
Proof.
  split; [reflexivity|].
  apply (write_file_unknown_dialect sample_env "zsh" "/t/etc" "/t" etc_world eq_refl).
Defined.

(** X13 at a sample input. *)
Lemma setenv_file_text_witness :
  islink (fs etc_world) (join "/t/etc" ("v1" ++ ".csh")) = false
  /\ islink (fs etc_world) (join "/t/etc" ".version") = false
  /\ write_file sample_env "tsch" "/t/etc" "/t" etc_world
     = (fst (write_file sample_env "tsch" "/t/etc" "/t" etc_world), Ok tt)
  /\ ("tsch" = "tsch" /\ ".csh" = ".csh" \/ "tsch" = "modules" /\ ".csh" = ".module")
  /\ read (fs (fst (write_file sample_env "tsch" "/t/etc" "/t" etc_world)))
       (join "/t/etc" ("v1" ++ ".csh"))
     = Some (header_text "tsch" "/t" "v1" ++ nl ++ setenv_body sample_env)
  /\ (forall section vars name path,
        In (section, vars) sample_env -> section <> "default" -> In (name, path) vars ->
        exists pre post,
          setenv_body sample_env
          = pre ++ ("setenv " ++ upper name ++ " " ++ str path ++ nl) ++ post).
Proof.
  assert (H : write_file sample_env "tsch" "/t/etc" "/t" etc_world
     = (fst (write_file sample_env "tsch" "/t/etc" "/t" etc_world), Ok tt))
    by (vm_compute; reflexivity).
  split; [vm_compute; reflexivity|]. split; [vm_compute; reflexivity|]. split; [exact H|].
  apply (setenv_file_text sample_env "tsch" "/t/etc" "/t" etc_world _ _ "v1" ".csh"
           eq_refl eq_refl eq_refl ltac:(discriminate) ltac:(vm_compute; reflexivity)
           ltac:(vm_compute; reflexivity) H).
Defined.



(** X17 at a sample input. *)
Lemma find_modules_path_from_env_witness :
  given None = false
  /\ osenv shell_world !! "MODULEPATH" = Some "/m:/n"
  /\ "/m:/n" <> ""
  /\ find_modules_path None true shell_world
     = (say ("Multiple module paths found.  Using top one: " ++ "/m") shell_world, Ok "/m").
Proof.
  split; [reflexivity|]. split; [vm_compute; reflexivity|]. split; [discriminate|].
  apply (find_modules_path_from_env None true shell_world "/m:/n" eq_refl);
    [vm_compute; reflexivity|discriminate].
Defined.

(** X18 at a sample input. *)
Lemma tree_name_taken_witness :
  find_modules_path (Some "/m") false taken_world = (taken_world, Ok "/m")
  /\ fs taken_world !! join "/m" "tree" = Some (File "" 0)
  /\ isdir (fs taken_world) (join "/m" "tree") = false
  /\ copy_modules "/t/etc" (Some "/m") false taken_world
     = (taken_world, Raise (OSError EEXIST)).
Proof.
  split; [reflexivity|]. split; [vm_compute; reflexivity|]. split; [vm_compute; reflexivity|].
  apply (tree_name_taken "/t/etc" (Some "/m") false taken_world taken_world "/m" (File "" 0)
           eq_refl); vm_compute; reflexivity.
Defined.


(** X20 at a sample input. *)
Lemma directory_named_module_aborts_witness :
  "d" <> "" /\ String.prefix "." "d" = false /\ contains "/" "d" = false
  /\ fs dir_module_world !! join (fst (split (join "/t/etc" "*.module"))) ("d" ++ ".module")
     = Some (Dir 0 true)
  /\ snd (copy_modules "/t/etc" (Some "/m") false dir_module_world) <> Ok tt.
Proof.
  split; [discriminate|]. split; [reflexivity|]. split; [reflexivity|].
  split; [vm_compute; reflexivity|].
  apply (directory_named_module_aborts "/t/etc" (Some "/m") false dir_module_world "d" 0 true);
    [discriminate|reflexivity|reflexivity|vm_compute; reflexivity].
Defined.

(** X22 at a sample input. *)
Lemma written_module_is_installed_witness :
  islink (fs etc_world) (join "/t/etc" ("v1" ++ ".module")) = false
  /\ islink (fs etc_world) (join "/t/etc" ".version") = false
  /\ write_file sample_env "modules" "/t/etc" "/t" etc_world
     = (fst (write_file sample_env "modules" "/t/etc" "/t" etc_world), Ok tt)
  /\ copy_modules "/t/etc" (Some "/m") false
       (fst (write_file sample_env "modules" "/t/etc" "/t" etc_world))
     = (fst (copy_modules "/t/etc" (Some "/m") false
               (fst (write_file sample_env "modules" "/t/etc" "/t" etc_world))), Ok tt)
  /\ fs (fst (copy_modules "/t/etc" (Some "/m") false
                (fst (write_file sample_env "modules" "/t/etc" "/t" etc_world))))
       !! join (join "/m" "tree") "v1"
     = Some (File (header_text "modules" "/t" "v1" ++ nl ++ setenv_body sample_env)
               (clock etc_world))
  /\ (forall c, getitem (V := value) [("name", VStr "v1"); ("current", VBool true)] "current"
                = Some c ->
                truthy c = true ->
        fs (fst (copy_modules "/t/etc" (Some "/m") false
                   (fst (write_file sample_env "modules" "/t/etc" "/t" etc_world))))
          !! join (join "/m" "tree") ".version"
        = Some (File ("#%Module1.0" ++ nl ++ "set ModulesVersion " ++ "v1") (clock etc_world))).
Proof.
  assert (Hw : write_file sample_env "modules" "/t/etc" "/t" etc_world
     = (fst (write_file sample_env "modules" "/t/etc" "/t" etc_world), Ok tt))
    by (vm_compute; reflexivity).
  assert (Hc : copy_modules "/t/etc" (Some "/m") false
       (fst (write_file sample_env "modules" "/t/etc" "/t" etc_world))
     = (fst (copy_modules "/t/etc" (Some "/m") false
               (fst (write_file sample_env "modules" "/t/etc" "/t" etc_world))), Ok tt))
    by (vm_compute; reflexivity).
  assert (Hplain : forall name, name <> "" -> contains "/" name = false ->
            is_plain (fs etc_world !! join (join "/m" "tree") name) = true).
  { intros name _ Hs. rewrite (proj2 (etc_tree_free name Hs)). reflexivity. }
  assert (Halias : forall name, contains "/" name = false ->
            join "/t/etc" ("v1" ++ ".module") <> join (join "/m" "tree") name
            /\ join "/t/etc" ".version" <> join (join "/m" "tree") name).
  { intros name Hs. rewrite (proj1 (etc_tree_free name Hs)).
    split; intros Heq; vm_compute in Heq; discriminate Heq. }
  split; [vm_compute; reflexivity|]. split; [vm_compute; reflexivity|].
  split; [exact Hw|]. split; [exact Hc|].
  apply (written_module_is_installed sample_env "/t/etc" "/t" (Some "/m") false etc_world
           _ _ _ _ "v1" "/m" eq_refl eq_refl ltac:(discriminate) eq_refl eq_refl
           ltac:(discriminate) eq_refl ltac:(vm_compute; reflexivity)
           ltac:(vm_compute; reflexivity) Hw eq_refl Hc Hplain Halias).
Defined.

(** X24 at a sample input. *)
Lemma check_sas_base_dir_settled_witness :
  given (osenv shell_world !! "SAS_BASE_DIR") = true
  /\ check_sas_base_dir None shell_world = (shell_world, Ok tt).
Proof.
  split; [vm_compute; reflexivity|].
  apply (check_sas_base_dir_settled shell_world). vm_compute; reflexivity.
Defined.

(** X25 at a sample input. *)
Lemma main_never_deletes_witness :
  (forall cfgfile w, fs (fst (sample_loader cfgfile w)) = fs w)
  /\ kept (fs tree_world !! "/t/data/v1.cfg")
       (fs (fst (main gmtime sample_loader sample_opts tree_world)) !! "/t/data/v1.cfg").
Proof.
  split; [reflexivity|].
  apply (main_never_deletes gmtime sample_loader sample_opts tree_world "/t/data/v1.cfg").
  reflexivity.
Defined.
